(** * Route segmentation and alternative-mode augmentation

    A shallow embedding of [scripts/route_segmentation.py] together with the
    parts of [scripts/publiBike_api.py], [scripts/e_scooter_api.py] and
    [scripts/otp_integration.py] it calls, followed by the properties of the
    engine.

    Conventions of the embedding.
    - Python floats are exact rationals ([Q]); NaN and infinities are not
      represented.  [round], [int] and [max] are the Python builtins on exact
      values.
    - A JSON object read with [d.get(k)] / [d.get(k, default)] is a record of
      [option] fields: [None] is "key absent", [Some v] is "key present".
    - A call that may raise returns a [result]; [try]/[except Exception] is a
      match on it.
    - The functions of Python's [math] module are an interface ([FloatMath]);
      every statement holds for all of its implementations. *)

From Stdlib Require Import List String Ascii Bool Arith ZArith QArith Qabs
  Qround Lia Lqa Permutation Sorted DecimalString.
Import ListNotations.

Local Open Scope Q_scope.

(** ** Python builtins on numbers and strings *)

Module Py.

(** A computation that returns a value or raises an exception. *)
Inductive result (A : Type) : Type :=
| Ok (a : A)
| Raise (msg : string).
Arguments Ok {A} a.
Arguments Raise {A} msg.

(** [d.get(k, default)] on an optional field. *)
Definition get {A : Type} (field : option A) (default : A) : A :=
  match field with
  | Some v => v
  | None => default
  end.

(** Strict comparisons on rationals as booleans. *)
Definition Qltb (x y : Q) : bool := negb (Qle_bool y x).
Definition Qleb (x y : Q) : bool := Qle_bool x y.

(** Nearest integer, ties to the even one. *)
Definition round_half_even (x : Q) : Z :=
  let f := Qfloor x in
  let d := x - inject_Z f in
  if Qltb d (1 # 2) then f
  else if Qltb (1 # 2) d then (f + 1)%Z
  else if Z.even f then f else (f + 1)%Z.

(** [round(x, ndigits)]. *)
Definition round (x : Q) (ndigits : nat) : Q :=
  let scale := inject_Z (10 ^ Z.of_nat ndigits) in
  inject_Z (round_half_even (x * scale)) / scale.

(** [int(x)]: truncation towards zero. *)
Definition int (x : Q) : Z :=
  if Qleb 0 x then Qfloor x else Qceiling x.

(** [max(a, b)]: the first argument unless the second is strictly larger. *)
Definition max (a b : Q) : Q := if Qltb a b then b else a.

(** [sum(...)] of a list of numbers. *)
Definition sum (xs : list Q) : Q := fold_left Qplus xs 0.

(** [str(n)] of an integer. *)
Definition str_int (n : Z) : string := NilZero.string_of_int (Z.to_int n).

(** [f"{x:.0f}"]. *)
Definition format_0f (x : Q) : string := str_int (round_half_even x).

(** [str(x)] of an optional string: [None] prints as "None". *)
Definition str_opt (s : option string) : string := get s "None"%string.

(** [c.lower()] on one character (ASCII letters). *)
Definition lower_ascii (c : ascii) : ascii :=
  let n := nat_of_ascii c in
  if (65 <=? n)%nat && (n <=? 90)%nat then ascii_of_nat (n + 32) else c.

(** [s.lower()]. *)
Fixpoint lower (s : string) : string :=
  match s with
  | EmptyString => EmptyString
  | String c s' => String (lower_ascii c) (lower s')
  end.

(** [needle in hay] on strings. *)
Fixpoint contains (needle hay : string) : bool :=
  String.prefix needle hay ||
  match hay with
  | EmptyString => false
  | String _ hay' => contains needle hay'
  end.

(** [a == b] on optional strings ([None == None] holds). *)
Definition opt_eqb (a b : option string) : bool :=
  match a, b with
  | None, None => true
  | Some x, Some y => String.eqb x y
  | _, _ => false
  end.

(** The characters [str(n)] is made of. *)
Definition digit_or_minus (c : ascii) : Prop :=
  In c (list_ascii_of_string "-0123456789").

(** [xs[-1]]. *)
Definition last_opt {A : Type} (xs : list A) : option A :=
  match rev xs with
  | [] => None
  | x :: _ => Some x
  end.

(** [xs[lo:hi]] for [lo <= hi]. *)
Definition slice {A : Type} (xs : list A) (lo hi : nat) : list A :=
  firstn (hi - lo) (skipn lo xs).

(** The truth value of a float: [0.0] is false. *)
Definition truthy (x : Q) : bool := negb (Qeq_bool x 0).

End Py.

Import Py.

(** ** The functions of Python's [math] module used by the distance formula *)

Class FloatMath : Type := {
  math_radians : Q -> Q;
  math_sin : Q -> Q;
  math_cos : Q -> Q;
  math_sqrt : Q -> Q;
  math_atan2 : Q -> Q -> Q
}.

(** A rational stand-in for the [math] module, used to run examples on city
    distances: results are cut to fifteen decimals; sine, cosine and arc
    tangent are their Taylor polynomials at 0, the square root is the integer
    square root of the scaled argument. *)
Definition cut15 (x : Q) : Q :=
  inject_Z (Qfloor (x * inject_Z (10 ^ 15))) / inject_Z (10 ^ 15).

Definition decimal_math : FloatMath := {|
  math_radians := fun d => cut15 (d * (355 # 113) / 180);
  math_sin := fun x => cut15 (x - x * x * x / 6);
  math_cos := fun x => cut15 (1 - x * x / 2 + x * x * x * x / 24);
  math_sqrt := fun x =>
    inject_Z (Z.sqrt (Qfloor (x * inject_Z (10 ^ 30)))) / inject_Z (10 ^ 15);
  math_atan2 := fun y x =>
    if Qeq_bool x 0 then 0
    else let t := cut15 (y / x) in cut15 (t - t * t * t / 3)
|}.

(** Haversine great-circle distance in metres ([calculate_distance], the same
    in both provider modules). *)
Definition haversine `{FloatMath} (lat1 lon1 lat2 lon2 : Q) : Q :=
  let R := 6371000 in
  let phi1 := math_radians lat1 in
  let phi2 := math_radians lat2 in
  let delta_phi := math_radians (lat2 - lat1) in
  let delta_lambda := math_radians (lon2 - lon1) in
  let a := math_sin (delta_phi / 2) ^ 2 +
           math_cos phi1 * math_cos phi2 * math_sin (delta_lambda / 2) ^ 2 in
  let c := 2 * math_atan2 (math_sqrt a) (math_sqrt (1 - a)) in
  R * c.

(** Python's [list.sort(key=...)] is stable: insertion after the elements whose
    key is not larger. *)
Section StableSort.
Context {A : Type} (key : A -> Q).

Fixpoint insert_by (x : A) (l : list A) : list A :=
  match l with
  | [] => [x]
  | y :: l' => if Qltb (key x) (key y) then x :: l else y :: insert_by x l'
  end.

Definition sort_by (l : list A) : list A :=
  fold_left (fun acc x => insert_by x acc) l [].
End StableSort.

(** ** [otp_integration.py]: itineraries and the routing client *)

Module Otp.

(** The [from] / [to] object of a leg. *)
Record Place : Type := {
  place_name : option string;
  place_lat : option Q;
  place_lon : option Q
}.

(** [{}], the default of [leg.get('to', {})]. *)
Definition empty_place : Place :=
  {| place_name := None; place_lat := None; place_lon := None |}.

(** One leg of a raw itinerary. *)
Record Leg : Type := {
  leg_mode : option string;
  leg_from : option Place;
  leg_to : option Place;
  leg_startTime : option Z;
  leg_endTime : option Z;
  leg_duration : option Q;
  leg_distance : option Q;
  leg_route : option string;
  leg_routeShortName : option string;
  leg_routeLongName : option string;
  leg_headsign : option string
}.

Record Itinerary : Type := {
  itin_duration : option Q;
  itin_startTime : option Z;
  itin_endTime : option Z;
  itin_walkDistance : option Q;
  itin_transfers : option Z;
  itin_legs : option (list Leg)
}.

Record Plan : Type := { plan_itineraries : option (list Itinerary) }.

Record Response : Type := { response_plan : option Plan }.

(** [otp_response.get('plan', {}).get('itineraries', [])]. *)
Definition response_itineraries (r : Response) : list Itinerary :=
  match response_plan r with
  | Some p => get (plan_itineraries p) []
  | None => []
  end.

(** [OTPClient]: [plan from_lat from_lon to_lat to_lon mode
    max_walk_distance num_itineraries] is the HTTP request; it raises on a
    network error, an HTTP error or a timeout. *)
Record OTPClient : Type := {
  plan : Q -> Q -> Q -> Q -> string -> Z -> Z -> result Response
}.

Definition plan_bicycle (c : OTPClient) (from_lat from_lon to_lat to_lon : Q)
    (num_itineraries : Z) : result Response :=
  plan c from_lat from_lon to_lat to_lon "BICYCLE"%string 1000%Z
    num_itineraries.

Record ParsedLeg : Type := {
  pl_mode : option string;
  pl_from : option string;
  pl_to : option string;
  pl_duration_sec : Q;
  pl_distance_m : Q;
  pl_route : option string;
  pl_route_short_name : option string;
  pl_route_long_name : option string
}.

Record Parsed : Type := {
  duration_sec : Q;
  duration_min : Q;
  start_time : option Z;
  end_time : option Z;
  walk_distance_m : Q;
  transfers : Z;
  legs : list ParsedLeg
}.

Definition parse_leg (leg : Leg) : ParsedLeg := {|
  pl_mode := leg_mode leg;
  pl_from := place_name (get (leg_from leg) empty_place);
  pl_to := place_name (get (leg_to leg) empty_place);
  pl_duration_sec := get (leg_duration leg) 0;
  pl_distance_m := get (leg_distance leg) 0;
  pl_route := leg_route leg;
  pl_route_short_name := leg_routeShortName leg;
  pl_route_long_name := leg_routeLongName leg
|}.

Definition parse_otp_itinerary (itinerary : Itinerary) : Parsed := {|
  duration_sec := get (itin_duration itinerary) 0;
  duration_min := round (get (itin_duration itinerary) 0 / 60) 1;
  start_time := itin_startTime itinerary;
  end_time := itin_endTime itinerary;
  walk_distance_m := get (itin_walkDistance itinerary) 0;
  transfers := get (itin_transfers itinerary) 0%Z;
  legs := map parse_leg (get (itin_legs itinerary) [])
|}.

End Otp.

(** ** [publiBike_api.py]: stations and the nearby-station search *)

Module PubliBike.

Record Vehicle : Type := {
  vehicle_id : option Z;
  vehicle_name : option string;
  ebike_battery_level : option Q
}.

Definition is_ebike (v : Vehicle) : bool :=
  match ebike_battery_level v with
  | Some _ => true
  | None => false
  end.

Record StationState : Type := {
  state_id : option Z;
  state_name : string
}.

Definition state_is_active (s : StationState) : bool :=
  match state_id s with
  | Some i => (i =? 1)%Z
  | None => false
  end.

(** A station; [address], [zip_code] and [city] are carried by the source
    record and read by none of the functions below. *)
Record Station : Type := {
  id : Z;
  latitude : Q;
  longitude : Q;
  state : StationState;
  name : option string;
  vehicles : list Vehicle
}.

Definition is_active (s : Station) : bool := state_is_active (state s).

Definition available_bikes_count (s : Station) : nat := List.length (vehicles s).

Definition available_ebikes_count (s : Station) : nat :=
  List.length (filter is_ebike (vehicles s)).

Definition has_bikes_available (s : Station) : bool :=
  (0 <? List.length (vehicles s))%nat.

(** [PubliBikeClient]: the two HTTP requests, each of which raises on a
    network error, an HTTP error or a timeout. *)
Record PubliBikeClient : Type := {
  get_stations_overview : result (list Station);
  get_station_details : Z -> result Station
}.

Section Nearby.
Context `{FloatMath}.

Definition calculate_distance (lat1 lon1 lat2 lon2 : Q) : Q :=
  haversine lat1 lon1 lat2 lon2.

(** The loop of [find_nearby_stations], before the sort. *)
Fixpoint scan_stations (lat lon : Q) (stations : list Station)
    (radius_m : Q) (only_active only_with_bikes : bool)
    : list (Station * Q) :=
  match stations with
  | [] => []
  | station :: rest =>
      let tail :=
        scan_stations lat lon rest radius_m only_active only_with_bikes in
      if only_active && negb (is_active station) then tail
      else if only_with_bikes && negb (has_bikes_available station)
      then tail
      else
        let distance :=
          calculate_distance lat lon (latitude station)
            (longitude station) in
        if Qleb distance radius_m then (station, distance) :: tail
        else tail
  end.

Definition find_nearby_stations (lat lon : Q) (stations : list Station)
    (radius_m : Q) (only_active only_with_bikes : bool)
    : list (Station * Q) :=
  sort_by snd
    (scan_stations lat lon stations radius_m only_active only_with_bikes).

(** The detail loop of [get_nearby_bikes]: a station whose detail request
    raises is skipped. *)
Fixpoint bikes_details (client : PubliBikeClient)
    (nearby : list (Station * Q)) : list (Station * Q) :=
  match nearby with
  | [] => []
  | (station, distance) :: rest =>
      match get_station_details client (id station) with
      | Ok detailed =>
          if has_bikes_available detailed
          then (detailed, distance) :: bikes_details client rest
          else bikes_details client rest
      | Raise _ => bikes_details client rest
      end
  end.

(** [get_nearby_bikes] with the client its caller passes. *)
Definition get_nearby_bikes (lat lon radius_m : Q)
    (client : PubliBikeClient) : result (list (Station * Q)) :=
  match get_stations_overview client with
  | Raise e => Raise e
  | Ok stations =>
      let nearby :=
        find_nearby_stations lat lon stations radius_m true false in
      Ok (bikes_details client nearby)
  end.

(** The detail loop of [get_nearby_return_stations]: a station whose
    detail request raises is kept with its overview data. *)
Fixpoint return_details (client : PubliBikeClient)
    (nearby : list (Station * Q)) : list (Station * Q) :=
  match nearby with
  | [] => []
  | (station, distance) :: rest =>
      match get_station_details client (id station) with
      | Ok detailed => (detailed, distance) :: return_details client rest
      | Raise _ => (station, distance) :: return_details client rest
      end
  end.

Definition get_nearby_return_stations (lat lon radius_m : Q)
    (client : PubliBikeClient) : result (list (Station * Q)) :=
  match get_stations_overview client with
  | Raise e => Raise e
  | Ok stations =>
      let nearby :=
        find_nearby_stations lat lon stations radius_m true false in
      Ok (return_details client nearby)
  end.
End Nearby.

(** The loop of [get_all_stations_with_details]: a station whose detail
    request raises is kept with its overview data. *)
Fixpoint all_details (client : PubliBikeClient) (overview : list Station)
    : list Station :=
  match overview with
  | [] => []
  | station :: rest =>
      match get_station_details client (id station) with
      | Ok detailed => detailed :: all_details client rest
      | Raise _ => station :: all_details client rest
      end
  end.

Definition get_all_stations_with_details (client : PubliBikeClient)
    : result (list Station) :=
  match get_stations_overview client with
  | Raise e => Raise e
  | Ok overview => Ok (all_details client overview)
  end.

End PubliBike.

(** ** [e_scooter_api.py]: scooters and the nearby-scooter search *)

Module EScooter.

Record Scooter : Type := {
  vehicle_id : string;
  latitude : Q;
  longitude : Q;
  provider_id : string;
  provider_name : string;
  vehicle_type : string;
  battery_level : option Q;
  is_reserved : bool;
  is_disabled : bool;
  distance : option Q
}.

Definition is_available (s : Scooter) : bool :=
  negb (is_reserved s) && negb (is_disabled s).

Definition get_battery_percentage (s : Scooter) : option Q :=
  battery_level s.

(** [VoiScooterClient]: [get_scooters_near_location latitude longitude
    radius_m] is the HTTP request with the provider filter applied; it
    raises on a network error, an HTTP error or a timeout. *)
Record VoiScooterClient : Type := {
  get_scooters_near_location : Q -> Q -> Q -> result (list Scooter)
}.

Definition get_available_scooters_near_location (c : VoiScooterClient)
    (latitude longitude radius_m : Q) : result (list Scooter) :=
  match get_scooters_near_location c latitude longitude radius_m with
  | Raise e => Raise e
  | Ok all_scooters => Ok (filter is_available all_scooters)
  end.

(** [battery is None or battery < min_battery_percentage]. *)
Definition battery_too_low (s : Scooter) (min_battery_percentage : Q)
    : bool :=
  match get_battery_percentage s with
  | None => true
  | Some battery => Qltb battery min_battery_percentage
  end.

Section Nearby.
Context `{FloatMath}.

Definition calculate_distance (lat1 lon1 lat2 lon2 : Q) : Q :=
  haversine lat1 lon1 lat2 lon2.

(** The loop of [find_nearby_scooters], before the sort. *)
Fixpoint scan_scooters (lat lon : Q) (scooters : list Scooter)
    (radius_m : Q) (only_available : bool)
    (min_battery_percentage : option Q) : list (Scooter * Q) :=
  match scooters with
  | [] => []
  | scooter :: rest =>
      let tail :=
        scan_scooters lat lon rest radius_m only_available
          min_battery_percentage in
      if only_available && negb (is_available scooter) then tail
      else if match min_battery_percentage with
              | Some m => battery_too_low scooter m
              | None => false
              end
      then tail
      else
        let distance :=
          calculate_distance lat lon (latitude scooter)
            (longitude scooter) in
        if Qleb distance radius_m then (scooter, distance) :: tail
        else tail
  end.

Definition find_nearby_scooters (lat lon : Q) (scooters : list Scooter)
    (radius_m : Q) (only_available : bool)
    (min_battery_percentage : option Q) : list (Scooter * Q) :=
  sort_by snd
    (scan_scooters lat lon scooters radius_m only_available
       min_battery_percentage).

(** The loop of [get_nearby_scooters]: no radius test of its own, the
    request has applied it. *)
Fixpoint with_distance (lat lon : Q) (scooters : list Scooter)
    (min_battery_percentage : option Q) : list (Scooter * Q) :=
  match scooters with
  | [] => []
  | scooter :: rest =>
      let tail := with_distance lat lon rest min_battery_percentage in
      if match min_battery_percentage with
         | Some m => battery_too_low scooter m
         | None => false
         end
      then tail
      else
        (scooter,
         calculate_distance lat lon (latitude scooter)
           (longitude scooter)) :: tail
  end.

(** [get_nearby_scooters] with the client its caller passes. *)
Definition get_nearby_scooters (lat lon radius_m : Q)
    (client : VoiScooterClient) (min_battery_percentage : option Q)
    : result (list (Scooter * Q)) :=
  match get_available_scooters_near_location client lat lon radius_m with
  | Raise e => Raise e
  | Ok scooters =>
      Ok (sort_by snd
            (with_distance lat lon scooters min_battery_percentage))
  end.
End Nearby.

Definition VOI_PROVIDER_ID : string := "voiscooters.com".

(** [limit and len(scooters) >= limit]: no limit and the limit 0 never stop
    the loop. *)
Definition limit_reached (limit : option Z) (n : nat) : bool :=
  match limit with
  | Some l => negb (l =? 0)%Z && (l <=? Z.of_nat n)%Z
  | None => false
  end.

Section Parse.
(** The features of the response and [Scooter.from_api_response], which
    raises on a feature it cannot read. *)
Context {Feature : Type} (from_api_response : Feature -> result Scooter).

(** The loop over [results] in [get_scooters_near_location]: a feature that
    cannot be read is skipped, a scooter of another provider is skipped, and
    the loop stops once the limit is reached. *)
Fixpoint collect_scooters (results : list Feature) (limit : option Z)
    (scooters : list Scooter) : list Scooter :=
  match results with
  | [] => scooters
  | feature :: rest =>
      match from_api_response feature with
      | Raise _ => collect_scooters rest limit scooters
      | Ok scooter =>
          if String.eqb (provider_id scooter) VOI_PROVIDER_ID then
            let scooters := scooters ++ [scooter] in
            if limit_reached limit (List.length scooters) then scooters
            else collect_scooters rest limit scooters
          else collect_scooters rest limit scooters
      end
  end.

(** [get_scooters_near_location] after the request: [response] is what
    [requests.get(...).json()] gave, as the list of features it holds, or the
    exception of the request. *)
Definition scooters_of_response (response : result (list Feature))
    (limit : option Z) : result (list Scooter) :=
  match response with
  | Raise e => Raise e
  | Ok results => Ok (collect_scooters results limit [])
  end.
End Parse.

(** One dictionary of the list [get_scooters_near_start] returns. *)
Record ScooterEntry : Type := {
  se_id : string;
  se_latitude : Q;
  se_longitude : Q;
  se_distance_m : Q;
  se_battery_percentage : option Q;
  se_is_available : bool;
  se_provider_id : string;
  se_provider_name : string;
  se_vehicle_type : string
}.

Definition scooter_entry (found : Scooter * Q) : ScooterEntry :=
  let '(scooter, distance) := found in
  let battery := get_battery_percentage scooter in
  {| se_id := vehicle_id scooter;
     se_latitude := latitude scooter;
     se_longitude := longitude scooter;
     se_distance_m := round distance 1;
     se_battery_percentage :=
       match battery with
       | Some b => if truthy b then Some (round b 1) else None
       | None => None
       end;
     se_is_available := is_available scooter;
     se_provider_id := provider_id scooter;
     se_provider_name := provider_name scooter;
     se_vehicle_type := vehicle_type scooter |}.

Section NearStart.
Context `{FloatMath}.

(** [get_scooters_near_start] with the client its lookup creates. *)
Definition get_scooters_near_start (client : VoiScooterClient)
    (start_lat start_lon radius_m : Q) : list ScooterEntry :=
  match get_nearby_scooters start_lat start_lon radius_m client None with
  | Raise _ => []
  | Ok nearby_scooters => map scooter_entry nearby_scooters
  end.
End NearStart.

End EScooter.

(** ** [route_segmentation.py] *)

Module RouteSegmentation.
Import Otp.

Record TransferPoint : Type := {
  name : string;
  latitude : Q;
  longitude : Q;
  arrival_time : option Z;
  departure_time : option Z;
  is_station : bool;
  modes_available : list string
}.

(** The [route_info] dictionary of a segment when it is not [{}]. *)
Record RouteInfo : Type := {
  ri_route : option string;
  ri_route_short_name : option string;
  ri_route_long_name : option string;
  ri_headsign : option string
}.

Record StartStationInfo : Type := {
  ss_name : option string;
  ss_distance_m : Z;
  ss_bikes_available : nat;
  ss_ebikes_available : nat;
  ss_latitude : Q;
  ss_longitude : Q
}.

Record DestStationInfo : Type := {
  ds_name : option string;
  ds_distance_m : Z;
  ds_latitude : Q;
  ds_longitude : Q
}.

Record ScooterInfo : Type := {
  sc_id : string;
  sc_distance_m : Z;
  sc_battery_percentage : Q;
  sc_provider : string;
  sc_latitude : Q;
  sc_longitude : Q
}.

(** The provider-specific keys of an alternative: [start_station] and
    [dest_station], or [scooter]. *)
Inductive Payload : Type :=
| BikePayload (start_station : StartStationInfo)
    (dest_station : DestStationInfo)
| ScooterPayload (scooter : ScooterInfo).

(** One dictionary of the list [find_alternative_modes_at_transfer]
    returns. *)
Record Alternative : Type := {
  alt_mode : string;
  alt_type : string;
  alt_summary : string;
  alt_payload : Payload;
  alt_duration_min : option Q;
  alt_distance_km : option Q;
  alt_est_cost_chf : Q
}.

Record RouteSegment : Type := {
  segment_id : string;
  from_point : TransferPoint;
  to_point : TransferPoint;
  mode : string;
  duration_min : Q;
  distance_m : Q;
  route_info : option RouteInfo;
  alternatives_available : bool;
  alternatives : list Alternative
}.

Definition to_info_of (leg : Leg) : Place := get (leg_to leg) empty_place.

(** The name the station test reads: [to_info.get('name', '')]. *)
Definition dest_name (leg : Leg) : string :=
  get (place_name (to_info_of leg)) ""%string.

(** The condition [is_transfer] of [extract_transfer_points]. *)
Definition is_transfer (leg next_leg : Leg) : bool :=
  negb (opt_eqb (leg_mode leg) (leg_mode next_leg)) ||
  negb (opt_eqb (leg_route leg) (leg_route next_leg)) ||
  contains "bahnhof"%string (lower (dest_name leg)) ||
  contains "station"%string (lower (dest_name leg)).

(** The point appended for the pair [(legs[i], legs[i + 1])]. *)
Definition intermediate_point (i : nat) (leg next_leg : Leg)
    : TransferPoint :=
  let to_info := to_info_of leg in
  {| name := get (place_name to_info)
               ("Transfer " ++ str_int (Z.of_nat i + 1))%string;
     latitude := get (place_lat to_info) 0;
     longitude := get (place_lon to_info) 0;
     arrival_time := leg_endTime leg;
     departure_time := leg_startTime next_leg;
     is_station := true;
     modes_available := [] |}.

(** The loop over [enumerate(legs[:-1])], entered at index [i]. *)
Fixpoint intermediate_points (i : nat) (legs : list Leg)
    : list TransferPoint :=
  match legs with
  | leg :: ((next_leg :: _) as rest) =>
      (if is_transfer leg next_leg
       then [intermediate_point i leg next_leg]
       else []) ++ intermediate_points (S i) rest
  | _ => []
  end.

Definition start_point (first_leg : Leg) : TransferPoint :=
  let from_info := get (leg_from first_leg) empty_place in
  {| name := get (place_name from_info) "Start"%string;
     latitude := get (place_lat from_info) 0;
     longitude := get (place_lon from_info) 0;
     arrival_time := None;
     departure_time := leg_startTime first_leg;
     is_station := negb (opt_eqb (leg_mode first_leg) (Some "WALK"%string));
     modes_available := [] |}.

Definition destination_point (last_leg : Leg) : TransferPoint :=
  let to_info := to_info_of last_leg in
  {| name := get (place_name to_info) "Destination"%string;
     latitude := get (place_lat to_info) 0;
     longitude := get (place_lon to_info) 0;
     arrival_time := leg_endTime last_leg;
     departure_time := None;
     is_station := false;
     modes_available := [] |}.

Definition extract_transfer_points (otp_itinerary : Itinerary)
    : list TransferPoint :=
  let legs := get (itin_legs otp_itinerary) [] in
  match legs with
  | [] => []
  | first_leg :: _ =>
      start_point first_leg
        :: intermediate_points 0 legs
        ++ [destination_point (last legs first_leg)]
  end.

(** The coordinate test of [create_route_segments]. *)
Definition ends_at (to_info : Place) (tp : TransferPoint) : bool :=
  Qltb (Qabs (get (place_lat to_info) 0 - latitude tp)) (1 # 10000) &&
  Qltb (Qabs (get (place_lon to_info) 0 - longitude tp)) (1 # 10000).

(** The inner loop that picks the primary mode and its route: the first
    leg whose mode is not 'WALK'. *)
Fixpoint primary_of (segment_legs : list Leg) : string * option RouteInfo :=
  match segment_legs with
  | [] => ("WALK"%string, None)
  | l :: rest =>
      if negb (opt_eqb (leg_mode l) (Some "WALK"%string))
      then (get (leg_mode l) "TRANSIT"%string,
            Some {| ri_route := leg_route l;
                    ri_route_short_name := leg_routeShortName l;
                    ri_route_long_name := leg_routeLongName l;
                    ri_headsign := leg_headsign l |})
      else primary_of rest
  end.

(** The segment built when [legs[leg_idx]] ends at
    [transfer_points[transfer_idx]]; [n_segments] is [len(segments)]. *)
Definition make_segment (transfer_points : list TransferPoint)
    (legs : list Leg) (n_segments current_segment_start leg_idx
      transfer_idx : nat) (tp : TransferPoint) : RouteSegment :=
  let segment_legs := slice legs current_segment_start (leg_idx + 1) in
  let total_duration :=
    sum (map (fun l => get (leg_duration l) 0) segment_legs) / 60 in
  let total_distance :=
    sum (map (fun l => get (leg_distance l) 0) segment_legs) in
  let '(primary_mode, route_info) := primary_of segment_legs in
  {| segment_id := ("seg-" ++ str_int (Z.of_nat n_segments + 1))%string;
     from_point := nth (transfer_idx - 1) transfer_points tp;
     to_point := tp;
     mode := primary_mode;
     duration_min := round total_duration 1;
     distance_m := total_distance;
     route_info := route_info;
     alternatives_available := false;
     alternatives := [] |}.

(** The loop over [enumerate(legs)], entered at [leg_idx] with the legs not
    yet visited in [rest]. *)
Fixpoint segments_loop (transfer_points : list TransferPoint)
    (legs rest : list Leg)
    (leg_idx current_segment_start transfer_idx : nat)
    (segments : list RouteSegment) : list RouteSegment :=
  match rest with
  | [] => segments
  | leg :: rest' =>
      let to_info := to_info_of leg in
      match nth_error transfer_points transfer_idx with
      | Some tp =>
          if ends_at to_info tp then
            let segment :=
              make_segment transfer_points legs (List.length segments)
                current_segment_start leg_idx transfer_idx tp in
            segments_loop transfer_points legs rest' (S leg_idx)
              (leg_idx + 1) (transfer_idx + 1) (segments ++ [segment])
          else
            segments_loop transfer_points legs rest' (S leg_idx)
              current_segment_start transfer_idx segments
      | None =>
          segments_loop transfer_points legs rest' (S leg_idx)
            current_segment_start transfer_idx segments
      end
  end.

Definition create_route_segments (otp_itinerary : Itinerary)
    (transfer_points : list TransferPoint) : list RouteSegment :=
  let legs := get (itin_legs otp_itinerary) [] in
  if (List.length transfer_points <? 2)%nat then []
  else segments_loop transfer_points legs legs 0 0 1 [].

(** The leg span [(current_segment_start, leg_idx + 1)] of each segment, in
    the order the segments are appended: the control skeleton of
    [segments_loop], recording the bounds of [segment_legs]. *)
Fixpoint spans_loop (transfer_points : list TransferPoint)
    (rest : list Leg) (leg_idx current_segment_start transfer_idx : nat)
    : list (nat * nat) :=
  match rest with
  | [] => []
  | leg :: rest' =>
      match nth_error transfer_points transfer_idx with
      | Some tp =>
          if ends_at (to_info_of leg) tp then
            (current_segment_start, leg_idx + 1)%nat
              :: spans_loop transfer_points rest' (S leg_idx) (leg_idx + 1)
                   (transfer_idx + 1)
          else
            spans_loop transfer_points rest' (S leg_idx)
              current_segment_start transfer_idx
      | None =>
          spans_loop transfer_points rest' (S leg_idx)
            current_segment_start transfer_idx
      end
  end.

Definition leg_spans (otp_itinerary : Itinerary)
    (transfer_points : list TransferPoint) : list (nat * nat) :=
  let legs := get (itin_legs otp_itinerary) [] in
  if (List.length transfer_points <? 2)%nat then []
  else spans_loop transfer_points legs 0 0 1.

Section Alternatives.
Context `{FloatMath}.

(** The duration and distance of the bike route: the block under
    [if otp_client:] of the PubliBike branch.  Both stay [None] when there
    is no client, when the request raises and when no itinerary comes
    back. *)
Definition bike_route_estimate (otp_client : option OTPClient)
    (start_station dest_station : PubliBike.Station)
    (start_dist dest_dist : Q) : option Q * option Q :=
  match otp_client with
  | None => (None, None)
  | Some oc =>
      match plan_bicycle oc (PubliBike.latitude start_station)
              (PubliBike.longitude start_station)
              (PubliBike.latitude dest_station)
              (PubliBike.longitude dest_station) 1 with
      | Raise _ => (None, None)
      | Ok otp_response =>
          match response_itineraries otp_response with
          | [] => (None, None)
          | itinerary :: _ =>
              let parsed := parse_otp_itinerary itinerary in
              let bike_time := Otp.duration_min parsed in
              let walk_to := round (start_dist / 80) 1 in
              let walk_from := round (dest_dist / 80) 1 in
              (Some (bike_time + walk_to + walk_from),
               Some (walk_distance_m parsed / 1000))
          end
      end
  end.

Definition bike_alternative (otp_client : option OTPClient)
    (start_station dest_station : PubliBike.Station)
    (start_dist dest_dist : Q) : Alternative :=
  let '(duration_estimate, distance_km) :=
    bike_route_estimate otp_client start_station dest_station start_dist
      dest_dist in
  {| alt_mode := "publibike";
     alt_type := "bike_share";
     alt_summary :=
       ("PubliBike from " ++ str_opt (PubliBike.name start_station)
          ++ " (" ++ str_int (int start_dist) ++ "m)")%string;
     alt_payload :=
       BikePayload
         {| ss_name := PubliBike.name start_station;
            ss_distance_m := int start_dist;
            ss_bikes_available :=
              PubliBike.available_bikes_count start_station;
            ss_ebikes_available :=
              PubliBike.available_ebikes_count start_station;
            ss_latitude := PubliBike.latitude start_station;
            ss_longitude := PubliBike.longitude start_station |}
         {| ds_name := PubliBike.name dest_station;
            ds_distance_m := int dest_dist;
            ds_latitude := PubliBike.latitude dest_station;
            ds_longitude := PubliBike.longitude dest_station |};
     alt_duration_min := duration_estimate;
     alt_distance_km := distance_km;
     alt_est_cost_chf := 4 |}.

(** The block under [if publibike_client:]; an exception of either lookup
    leaves [alternatives] as it was. *)
Definition publibike_alternatives (transfer_point destination
      : TransferPoint)
    (publibike_client : option PubliBike.PubliBikeClient)
    (otp_client : option OTPClient) (search_radius_m : Q)
    : list Alternative :=
  match publibike_client with
  | None => []
  | Some pc =>
      match PubliBike.get_nearby_bikes (latitude transfer_point)
              (longitude transfer_point) search_radius_m pc with
      | Raise _ => []
      | Ok nearby_bikes =>
          match PubliBike.get_nearby_return_stations
                  (latitude destination) (longitude destination)
                  search_radius_m pc with
          | Raise _ => []
          | Ok nearby_returns =>
              match nearby_bikes, nearby_returns with
              | (start_station, start_dist) :: _,
                (dest_station, dest_dist) :: _ =>
                  [bike_alternative otp_client start_station dest_station
                     start_dist dest_dist]
              | _, _ => []
              end
          end
      end
  end.

(** The triple [(duration_estimate, distance_km, est_cost)] of the scooter
    branch. *)
Definition scooter_route_estimate (otp_client : option OTPClient)
    (scooter : EScooter.Scooter) (scooter_dist : Q)
    (destination : TransferPoint) : option Q * option Q * Q :=
  match otp_client with
  | None => (Some 10, None, 5)
  | Some oc =>
      match plan oc (EScooter.latitude scooter)
              (EScooter.longitude scooter) (latitude destination)
              (longitude destination) "WALK" 10000 1 with
      | Raise _ => (Some 10, None, 5)
      | Ok otp_response =>
          match response_itineraries otp_response with
          | [] => (Some 10, None, 5)
          | itinerary :: _ =>
              let parsed := parse_otp_itinerary itinerary in
              let scooter_time :=
                max 3 (round (Otp.duration_min parsed / 3) 1) in
              let walk_to := round (scooter_dist / 80) 1 in
              (Some (scooter_time + walk_to),
               Some (walk_distance_m parsed / 1000),
               round (1 + scooter_time * (29 # 100)) 2)
          end
      end
  end.

Definition scooter_alternative (otp_client : option OTPClient)
    (scooter : EScooter.Scooter) (scooter_dist : Q)
    (destination : TransferPoint) : Alternative :=
  let '(duration_estimate, distance_km, est_cost) :=
    scooter_route_estimate otp_client scooter scooter_dist destination in
  let battery := EScooter.get_battery_percentage scooter in
  let battery_pct := get battery 100 in
  let summary :=
    match battery with
    | Some _ =>
        ("Voi Scooter (" ++ str_int (int scooter_dist) ++ "m away, "
           ++ format_0f battery_pct ++ "% battery)")%string
    | None =>
        ("Voi Scooter (" ++ str_int (int scooter_dist)
           ++ "m away)")%string
    end in
  {| alt_mode := "e_scooter";
     alt_type := "scooter_share";
     alt_summary := summary;
     alt_payload :=
       ScooterPayload
         {| sc_id := EScooter.vehicle_id scooter;
            sc_distance_m := int scooter_dist;
            sc_battery_percentage := battery_pct;
            sc_provider := EScooter.provider_name scooter;
            sc_latitude := EScooter.latitude scooter;
            sc_longitude := EScooter.longitude scooter |};
     alt_duration_min := duration_estimate;
     alt_distance_km := distance_km;
     alt_est_cost_chf := est_cost |}.

(** The block under [if escooter_client:]. *)
Definition escooter_alternatives (transfer_point destination
      : TransferPoint)
    (escooter_client : option EScooter.VoiScooterClient)
    (otp_client : option OTPClient) (search_radius_m : Q)
    : list Alternative :=
  match escooter_client with
  | None => []
  | Some ec =>
      match EScooter.get_nearby_scooters (latitude transfer_point)
              (longitude transfer_point) search_radius_m ec None with
      | Raise _ => []
      | Ok nearby_scooters =>
          match nearby_scooters with
          | (scooter, scooter_dist) :: _ =>
              [scooter_alternative otp_client scooter scooter_dist
                 destination]
          | [] => []
          end
      end
  end.

Definition find_alternative_modes_at_transfer
    (transfer_point destination : TransferPoint)
    (publibike_client : option PubliBike.PubliBikeClient)
    (escooter_client : option EScooter.VoiScooterClient)
    (otp_client : option OTPClient) (search_radius_m : Q)
    : list Alternative :=
  let alternatives := [] in
  let alternatives :=
    alternatives ++
    publibike_alternatives transfer_point destination publibike_client
      otp_client search_radius_m in
  let alternatives :=
    alternatives ++
    escooter_alternatives transfer_point destination escooter_client
      otp_client search_radius_m in
  alternatives.

Definition set_alternatives (segment : RouteSegment)
    (alts : list Alternative) : RouteSegment :=
  {| segment_id := segment_id segment;
     from_point := from_point segment;
     to_point := to_point segment;
     mode := mode segment;
     duration_min := duration_min segment;
     distance_m := distance_m segment;
     route_info := route_info segment;
     alternatives_available := true;
     alternatives := alts |}.

(** The body of the loop [for i, segment in enumerate(segments)];
    [n] is [len(segments)]. *)
Definition augment_segment (transfer_points : list TransferPoint)
    (publibike_client : option PubliBike.PubliBikeClient)
    (escooter_client : option EScooter.VoiScooterClient)
    (otp_client : option OTPClient) (n i : nat) (segment : RouteSegment)
    : RouteSegment :=
  let final_dest := last transfer_points (to_point segment) in
  let segment :=
    if (i =? 0)%nat then
      let start_alternatives :=
        find_alternative_modes_at_transfer (from_point segment)
          final_dest publibike_client escooter_client otp_client 300 in
      match start_alternatives with
      | [] => segment
      | _ :: _ => set_alternatives segment start_alternatives
      end
    else segment in
  if (i <? n - 1)%nat then
    let alts :=
      find_alternative_modes_at_transfer (to_point segment) final_dest
        publibike_client escooter_client otp_client 300 in
    match alts with
    | [] => segment
    | _ :: _ =>
        if alternatives_available segment && (i =? 0)%nat
        then set_alternatives segment (alternatives segment ++ alts)
        else set_alternatives segment alts
    end
  else segment.

Fixpoint augment_loop (transfer_points : list TransferPoint)
    (publibike_client : option PubliBike.PubliBikeClient)
    (escooter_client : option EScooter.VoiScooterClient)
    (otp_client : option OTPClient) (n i : nat)
    (segments : list RouteSegment) : list RouteSegment :=
  match segments with
  | [] => []
  | segment :: rest =>
      augment_segment transfer_points publibike_client escooter_client
        otp_client n i segment
        :: augment_loop transfer_points publibike_client escooter_client
             otp_client n (S i) rest
  end.

(** The dictionaries of the returned ['transfer_points'] and
    ['segments'] lists. *)
Record TransferPointView : Type := {
  tv_name : string;
  tv_latitude : Q;
  tv_longitude : Q;
  tv_arrival_time : option Z;
  tv_departure_time : option Z;
  tv_is_station : bool
}.

Record SegmentView : Type := {
  sv_segment_id : string;
  sv_from : string;
  sv_to : string;
  sv_mode : string;
  sv_duration_min : Q;
  sv_distance_m : Q;
  sv_route_info : option RouteInfo;
  sv_alternatives_available : bool;
  sv_alternatives : list Alternative
}.

Record Analysis : Type := {
  out_transfer_points : list TransferPointView;
  out_segments : list SegmentView;
  total_segments : nat;
  total_transfers : Z
}.

Definition view_point (tp : TransferPoint) : TransferPointView :=
  {| tv_name := name tp;
     tv_latitude := latitude tp;
     tv_longitude := longitude tp;
     tv_arrival_time := arrival_time tp;
     tv_departure_time := departure_time tp;
     tv_is_station := is_station tp |}.

Definition view_segment (seg : RouteSegment) : SegmentView :=
  {| sv_segment_id := segment_id seg;
     sv_from := name (from_point seg);
     sv_to := name (to_point seg);
     sv_mode := mode seg;
     sv_duration_min := duration_min seg;
     sv_distance_m := distance_m seg;
     sv_route_info := route_info seg;
     sv_alternatives_available := alternatives_available seg;
     sv_alternatives := alternatives seg |}.

Definition analyze_route_with_alternatives (otp_itinerary : Itinerary)
    (publibike_client : option PubliBike.PubliBikeClient)
    (escooter_client : option EScooter.VoiScooterClient)
    (otp_client : option OTPClient) : Analysis :=
  let transfer_points := extract_transfer_points otp_itinerary in
  let segments := create_route_segments otp_itinerary transfer_points in
  let segments :=
    augment_loop transfer_points publibike_client escooter_client
      otp_client (List.length segments) 0 segments in
  {| out_transfer_points := map view_point transfer_points;
     out_segments := map view_segment segments;
     total_segments := List.length segments;
     total_transfers := Z.of_nat (List.length transfer_points) - 2 |}.
End Alternatives.

End RouteSegmentation.

(** ** [app.py]: the helpers around the segmentation *)

Module App.
Import Otp RouteSegmentation.

(** [is_walk_only_route]; [None] is an argument that is [None], empty or
    without a ['legs'] key. *)
Definition is_walk_only_route (parsed_itinerary : option Parsed) : bool :=
  match parsed_itinerary with
  | None => true
  | Some parsed =>
      match legs parsed with
      | [] => true
      | ls =>
          forallb (fun leg => opt_eqb (pl_mode leg) (Some "WALK"%string)) ls
      end
  end.

(** [route_data['has_alternatives']] of [api_routes]. *)
Definition has_alternatives (segmented : Analysis) : bool :=
  existsb sv_alternatives_available (out_segments segmented).

End App.

(** ** Orderings and sums used in the statements *)

Module Shape.

(** Ascending by distance. *)
Definition ascending {A : Type} (l : list (A * Q)) : Prop :=
  StronglySorted (fun a b => snd a <= snd b) l.

(** The scooters of the provider among the features that can be read, in
    the order of the response. *)
Definition readable_voi_scooters {Feature : Type}
    (from_api_response : Feature -> result EScooter.Scooter)
    (results : list Feature) : list EScooter.Scooter :=
  filter
    (fun sc => String.eqb (EScooter.provider_id sc) EScooter.VOI_PROVIDER_ID)
    (flat_map (fun feature =>
                 match from_api_response feature with
                 | Ok sc => [sc]
                 | Raise _ => []
                 end) results).

(** The number of adjacent leg pairs at which the detector sees a
    transfer. *)
Definition transfer_count (legs : list Otp.Leg) : nat :=
  List.length
    (filter (fun pair => RouteSegmentation.is_transfer (fst pair) (snd pair))
       (combine legs (tl legs))).

(** The segment [seg] as the response shows it, alternatives apart. *)
Definition shows (sv : RouteSegmentation.SegmentView)
    (seg : RouteSegmentation.RouteSegment) : Prop :=
  RouteSegmentation.sv_segment_id sv = RouteSegmentation.segment_id seg /\
  RouteSegmentation.sv_from sv
  = RouteSegmentation.name (RouteSegmentation.from_point seg) /\
  RouteSegmentation.sv_to sv
  = RouteSegmentation.name (RouteSegmentation.to_point seg) /\
  RouteSegmentation.sv_mode sv = RouteSegmentation.mode seg /\
  RouteSegmentation.sv_duration_min sv = RouteSegmentation.duration_min seg /\
  RouteSegmentation.sv_distance_m sv = RouteSegmentation.distance_m seg /\
  RouteSegmentation.sv_route_info sv = RouteSegmentation.route_info seg.

End Shape.

(** ** The transfer conditions in the words of the specification *)

Module Spec.
Import Otp RouteSegmentation.








(** The segment carries the aggregates of the legs of the span. *)
Definition aggregates_span (legs : list Leg) (span : nat * nat)
    (seg : RouteSegment) : Prop :=
  let segment_legs := slice legs (fst span) (snd span) in
  duration_min seg
  = round (sum (map (fun l => get (leg_duration l) 0) segment_legs) / 60) 1
  /\ distance_m seg
     = sum (map (fun l => get (leg_distance l) 0) segment_legs)
  /\ (mode seg, route_info seg) = primary_of segment_legs.

(** The leg ends at the very coordinates of the transfer point. *)
Definition exactly_at (leg : Leg) (tp : TransferPoint) : Prop :=
  get (place_lat (to_info_of leg)) 0 = latitude tp /\
  get (place_lon (to_info_of leg)) 0 = longitude tp.

(** The transfer points can be matched, in order, to legs ending exactly at
    them. *)
Inductive Embeds : list TransferPoint -> list Leg -> Prop :=
| Embeds_nil (legs : list Leg) : Embeds [] legs
| Embeds_take (tp : TransferPoint) (tps : list TransferPoint) (leg : Leg)
    (legs : list Leg) :
    exactly_at leg tp -> Embeds tps legs -> Embeds (tp :: tps) (leg :: legs)
| Embeds_skip (tps : list TransferPoint) (leg : Leg) (legs : list Leg) :
    Embeds tps legs -> Embeds tps (leg :: legs).


End Spec.

(** ** Sample itineraries and providers *)

Module Samples.
Import Otp RouteSegmentation.
Local Open Scope string_scope.

Definition place (n : string) (lat lon : Q) : Place :=
  {| place_name := Some n; place_lat := Some lat; place_lon := Some lon |}.

Definition leg (m : option string) (r : option string) (src dst : Place)
    (seconds metres : Q) : Leg :=
  {| leg_mode := m; leg_from := Some src; leg_to := Some dst;
     leg_startTime := None; leg_endTime := None;
     leg_duration := Some seconds; leg_distance := Some metres;
     leg_route := r; leg_routeShortName := r;
     leg_routeLongName := None; leg_headsign := None |}.

Definition itinerary (ls : list Leg) : Itinerary :=
  {| itin_duration := None; itin_startTime := None; itin_endTime := None;
     itin_walkDistance := None; itin_transfers := None;
     itin_legs := Some ls |}.

Definition home : Place := place "Home" (4695 # 100) (744 # 100).
Definition stop_a : Place := place "Zytglogge" (4694 # 100) (743 # 100).
Definition stop_b : Place := place "Bern, Bahnhof" (4693 # 100) (742 # 100).
Definition office : Place := place "Office" (4692 # 100) (741 # 100).

(** A single walking leg (scenario A). *)
Definition walk_only : Itinerary :=
  itinerary [leg (Some "WALK") None home stop_a 600 700].

(** WALK, TRAM, WALK (scenario B). *)
Definition walk_tram_walk : Itinerary :=
  itinerary
    [leg (Some "WALK") None home stop_a 300 250;
     leg (Some "TRAM") (Some "9") stop_a stop_b 600 2500;
     leg (Some "WALK") None stop_b office 125 100].





(** Providers: three stations (one inactive, one far away) and two
    scooters (one reserved), seen from [stop_b]. *)
Definition active : PubliBike.StationState :=
  {| PubliBike.state_id := Some 1%Z; PubliBike.state_name := "Active" |}.

Definition closed : PubliBike.StationState :=
  {| PubliBike.state_id := Some 3%Z; PubliBike.state_name := "Closed" |}.

Definition bike : PubliBike.Vehicle :=
  {| PubliBike.vehicle_id := Some 7%Z; PubliBike.vehicle_name := None;
     PubliBike.ebike_battery_level := None |}.

Definition station (i : Z) (n : string) (lat lon : Q)
    (st : PubliBike.StationState) (vs : list PubliBike.Vehicle)
    : PubliBike.Station :=
  {| PubliBike.id := i; PubliBike.latitude := lat;
     PubliBike.longitude := lon; PubliBike.state := st;
     PubliBike.name := Some n; PubliBike.vehicles := vs |}.

Definition stations : list PubliBike.Station :=
  [station 1 "Bahnhofplatz" (4693 # 100) (742 # 100) active [bike];
   station 2 "Depot" (4693 # 100) (742 # 100) closed [bike];
   station 3 "Office yard" (4692 # 100) (741 # 100) active []].

Definition detail_of (i : Z) : result PubliBike.Station :=
  match find (fun st => (PubliBike.id st =? i)%Z) stations with
  | Some st => Ok st
  | None => Raise "404"
  end.

Definition publibike_up : PubliBike.PubliBikeClient :=
  {| PubliBike.get_stations_overview := Ok stations;
     PubliBike.get_station_details := detail_of |}.

Definition publibike_down : PubliBike.PubliBikeClient :=
  {| PubliBike.get_stations_overview := Raise "timeout";
     PubliBike.get_station_details := fun _ => Raise "timeout" |}.

Definition scooter (i : string) (lat lon : Q) (battery : option Q)
    (reserved : bool) : EScooter.Scooter :=
  {| EScooter.vehicle_id := i; EScooter.latitude := lat;
     EScooter.longitude := lon;
     EScooter.provider_id := "voiscooters.com";
     EScooter.provider_name := "Voi Technology AB";
     EScooter.vehicle_type := "E-Scooter";
     EScooter.battery_level := battery;
     EScooter.is_reserved := reserved; EScooter.is_disabled := false;
     EScooter.distance := None |}.

Definition scooters : list EScooter.Scooter :=
  [scooter "voi-1" (4693 # 100) (742 # 100) None false;
   scooter "voi-2" (4693 # 100) (742 # 100) (Some 42) true].

(** The scooter service answers with the two scooters at [stop_b] and with
    none anywhere else. *)
Definition escooter_up : EScooter.VoiScooterClient :=
  {| EScooter.get_scooters_near_location := fun lat lon _ =>
       if Qeq_bool lat (4693 # 100) && Qeq_bool lon (742 # 100)
       then Ok scooters else Ok [] |}.

Definition escooter_down : EScooter.VoiScooterClient :=
  {| EScooter.get_scooters_near_location := fun _ _ _ => Raise "timeout" |}.

Definition otp_down : OTPClient :=
  {| plan := fun _ _ _ _ _ _ _ => Raise "timeout" |}.

(** A routing client that answers every request with one itinerary of
    [seconds] seconds and [metres] metres. *)
Definition otp_up (seconds metres : Q) : OTPClient :=
  {| plan := fun _ _ _ _ _ _ _ =>
       Ok {| response_plan :=
               Some {| plan_itineraries :=
                         Some [ {| itin_duration := Some seconds;
                                   itin_startTime := None;
                                   itin_endTime := None;
                                   itin_walkDistance := Some metres;
                                   itin_transfers := None;
                                   itin_legs := None |} ] |} |} |}.

Definition point (p : Place) : TransferPoint :=
  {| name := get (place_name p) ""; latitude := get (place_lat p) 0;
     longitude := get (place_lon p) 0; arrival_time := None;
     departure_time := None; is_station := true; modes_available := [] |}.

End Samples.

(** * Properties *)

(** ** Strings: the substring test *)

Module PyFacts.

Local Open Scope string_scope.

Lemma prefix_iff (n h : string) :
  String.prefix n h = true <-> exists post, h = n ++ post.
Proof.
  revert n; induction h as [|c' h IH]; intros [|c n]; simpl.
  - split; [intros _; now exists "" | reflexivity].
  - split; [discriminate | intros [post E]; discriminate].
  - split; [intros _; now exists (String c' h) | reflexivity].
  - destruct (Ascii.ascii_dec c c') as [->|Hne].
    + rewrite IH. split; intros [post E]; exists post; congruence.
    + split; [discriminate | intros [post E]; congruence].
Qed.

(** [needle in hay] holds exactly when [hay] splits around [needle]. *)
Lemma contains_iff (n h : string) :
  contains n h = true <-> exists pre post, h = pre ++ n ++ post.
Proof.
  induction h as [|c h IH].
  - change (contains n "") with (String.prefix n "" || false)%bool.
    rewrite orb_false_r, prefix_iff. split.
    + intros [post E]. now exists "", post.
    + intros [pre [post E]]. destruct pre; simpl in E; [now exists post|].
      discriminate.
  - change (contains n (String c h))
      with (String.prefix n (String c h) || contains n h)%bool.
    rewrite orb_true_iff, IH, prefix_iff. split.
    + intros [[post E] | [pre [post E]]].
      * now exists "", post.
      * exists (String c pre), post. simpl. now rewrite E.
    + intros [pre [post E]]. destruct pre as [|c' pre]; simpl in E.
      * left. now exists post.
      * right. exists pre, post. congruence.
Qed.

Lemma opt_eqb_eq (a b : option string) : opt_eqb a b = true <-> a = b.
Proof.
  destruct a as [x|], b as [y|]; simpl; try (split; congruence).
  rewrite String.eqb_eq. split; congruence.
Qed.

Lemma opt_eqb_neq (a b : option string) :
  negb (opt_eqb a b) = true <-> a <> b.
Proof.
  rewrite negb_true_iff, <- not_true_iff_false, opt_eqb_eq. tauto.
Qed.

(** The first character of a needle that occurs occurs. *)
Lemma contains_first_char (c : ascii) (n h : string) :
  contains (String c n) h = true -> In c (list_ascii_of_string h).
Proof.
  rewrite contains_iff. intros [pre [post ->]].
  induction pre as [|c' pre IH]; simpl; auto.
Qed.

Lemma list_ascii_of_string_app (a b : string) :
  list_ascii_of_string (a ++ b)
  = (list_ascii_of_string a ++ list_ascii_of_string b)%list.
Proof. induction a; simpl; congruence. Qed.

Ltac pick_char :=
  unfold digit_or_minus; simpl; repeat (first [left; reflexivity | right]).

Lemma uint_chars (d : Decimal.uint) (c : ascii) :
  In c (list_ascii_of_string (NilEmpty.string_of_uint d)) ->
  digit_or_minus c.
Proof.
  induction d; simpl; intros Hc; try contradiction;
    (destruct Hc as [<- | Hc]; [pick_char | auto]).
Qed.

(** [str(n)] is made of digits and at most a sign. *)
Lemma str_int_chars (n : Z) (c : ascii) :
  In c (list_ascii_of_string (str_int n)) -> digit_or_minus c.
Proof.
  unfold str_int, NilZero.string_of_int.
  destruct (Z.to_int n) as [d|d]; unfold NilZero.string_of_uint.
  - destruct d; try apply uint_chars.
    simpl. intros [<- | []]. pick_char.
  - simpl. intros [<- | Hc]; [pick_char|].
    revert Hc. destruct d; try apply uint_chars.
    simpl. intros [<- | []]. pick_char.
Qed.

Local Open Scope Q_scope.



End PyFacts.

(** ** Transfer-point detection *)

Module DetectorFacts.
Import Otp RouteSegmentation Spec PyFacts.






Lemma intermediate_points_cons2 (k : nat) (p q : Leg) (l : list Leg) :
  intermediate_points k (p :: q :: l)
  = (if is_transfer p q then [intermediate_point k p q] else [])
    ++ intermediate_points (S k) (q :: l).
Proof. reflexivity. Qed.




Lemma extract_transfer_points_cons (it : Itinerary) (first : Leg)
    (rest : list Leg) :
  itin_legs it = Some (first :: rest) ->
  extract_transfer_points it
  = start_point first
      :: intermediate_points 0 (first :: rest)
      ++ [destination_point (last (first :: rest) first)].
Proof. intros E. unfold extract_transfer_points. now rewrite E. Qed.






End DetectorFacts.

(** ** Segment building *)

Module SegmentFacts.
Import Otp RouteSegmentation Spec PyFacts DetectorFacts.

Lemma Qltb_abs_refl (x : Q) : Qltb (Qabs (x - x)) (1 # 10000) = true.
Proof.
  unfold Qltb. apply negb_true_iff, not_true_iff_false. intros Hle.
  apply Qle_bool_iff in Hle.
  assert (E : Qabs (x - x) == 0).
  { rewrite (Qplus_opp_r x). reflexivity. }
  rewrite E in Hle. revert Hle. unfold Qle; simpl. lia.
Qed.

(** The tolerance test accepts equal coordinates. *)
Lemma ends_at_exact (leg : Leg) (tp : TransferPoint) :
  exactly_at leg tp -> ends_at (to_info_of leg) tp = true.
Proof.
  intros [Hlat Hlon]. unfold ends_at. rewrite Hlat, Hlon.
  now rewrite !Qltb_abs_refl.
Qed.

Lemma Embeds_tail (tp : TransferPoint) (tps : list TransferPoint)
    (legs : list Leg) :
  Embeds (tp :: tps) legs -> Embeds tps legs.
Proof.
  intros He. remember (tp :: tps) as pts eqn:Ep.
  induction He as [legs | tp' tps' leg legs Hat He IH | tps' leg legs He IH].
  - discriminate.
  - injection Ep as -> ->. now apply Embeds_skip.
  - apply Embeds_skip. now apply IH.
Qed.


Lemma nth_error_skipn {A : Type} (l : list A) (n : nat) :
  match nth_error l n with
  | Some x => skipn n l = x :: skipn (n + 1) l
  | None => skipn n l = []
  end.
Proof.
  revert l; induction n as [|n IH]; intros [|a l]; simpl; auto.
  apply IH.
Qed.

(** The origin, the intermediate points and the destination can be matched
    to the legs they were taken from. *)
Lemma embeds_points (legs : list Leg) (k : nat) (d : Leg) :
  legs <> [] ->
  Embeds (intermediate_points k legs ++ [destination_point (last legs d)])
    legs.
Proof.
  revert k; induction legs as [|l rest IH]; intros k Hne; [congruence|].
  destruct rest as [|n r].
  - simpl. apply Embeds_take; [split; reflexivity | constructor].
  - rewrite intermediate_points_cons2.
    change (last (l :: n :: r) d) with (last (n :: r) d).
    specialize (IH (S k) ltac:(discriminate)).
    destruct (is_transfer l n); cbn [app].
    + apply Embeds_take; [split; reflexivity | exact IH].
    + apply Embeds_skip. exact IH.
Qed.

(** Greedy matching consumes every transfer point that can be matched. *)
Lemma segments_loop_length (tps : list TransferPoint) (legs rest : list Leg) :
  forall leg_idx start tidx segs,
    Embeds (skipn tidx tps) rest ->
    List.length (segments_loop tps legs rest leg_idx start tidx segs)
    = (List.length segs + List.length (skipn tidx tps))%nat.
Proof.
  induction rest as [|leg rest IH]; intros leg_idx start tidx segs He.
  - inversion He as [? E | |]. simpl. lia.
  - cbn [segments_loop]. pose proof (nth_error_skipn tps tidx) as Hs.
    destruct (nth_error tps tidx) as [tp|].
    + rewrite Hs in He |- *.
      destruct (ends_at (to_info_of leg) tp) eqn:Hends.
      * rewrite IH.
        -- rewrite length_app. simpl. lia.
        -- inversion He as [| ? ? ? ? Hat He' | ? ? ? He']; subst;
             [exact He' | now apply Embeds_tail in He'].
      * inversion He as [| ? ? ? ? Hat He' | ? ? ? He']; subst.
        -- apply ends_at_exact in Hat. congruence.
        -- rewrite IH; [now rewrite Hs | rewrite Hs; exact He'].
    + rewrite Hs in He |- *.
      assert (He' : Embeds [] rest) by constructor.
      rewrite IH; [now rewrite Hs | rewrite Hs; exact He'].
Qed.

Lemma extract_length (it : Itinerary) (first : Leg) (rest : list Leg) :
  itin_legs it = Some (first :: rest) ->
  (2 <= List.length (extract_transfer_points it))%nat.
Proof.
  intros E. rewrite (extract_transfer_points_cons it first rest E).
  simpl. rewrite length_app. simpl. lia.
Qed.

(** Every transfer point after the origin closes one segment. *)
Lemma create_route_segments_length (it : Itinerary) (first : Leg)
    (rest : list Leg) :
  itin_legs it = Some (first :: rest) ->
  List.length (create_route_segments it (extract_transfer_points it))
  = (List.length (extract_transfer_points it) - 1)%nat.
Proof.
  intros E. pose proof (extract_length it first rest E) as H2.
  unfold create_route_segments.
  destruct (List.length (extract_transfer_points it) <? 2)%nat eqn:Hlt;
    [apply Nat.ltb_lt in Hlt; lia|].
  rewrite E. cbn [get]. rewrite segments_loop_length.
  - rewrite (extract_transfer_points_cons it first rest E). simpl. lia.
  - rewrite (extract_transfer_points_cons it first rest E).
    cbn [skipn]. apply embeds_points. discriminate.
Qed.

(** C2: for every itinerary with at least one leg the number of segments
    is the number of transfer points minus one (there are at least two
    transfer points); a single-leg itinerary gives exactly two transfer
    points and one segment. *)
Theorem segment_count (it : Itinerary) :
  get (itin_legs it) [] <> [] ->
  let tps := extract_transfer_points it in
  let segments := create_route_segments it tps in
  (2 <= List.length tps)%nat /\
  List.length segments = (List.length tps - 1)%nat /\
  (forall l, itin_legs it = Some [l] ->
     List.length tps = 2%nat /\ List.length segments = 1%nat).
Proof.
  intros Hne tps segments.
  destruct (itin_legs it) as [[|first rest]|] eqn:E; simpl in Hne;
    try congruence.
  pose proof (extract_length it first rest E) as H2. fold tps in H2.
  pose proof (create_route_segments_length it first rest E) as Hcount.
  fold tps in Hcount. fold segments in Hcount.
  split; [exact H2|]. split; [exact Hcount|].
  intros l Hl. injection Hl as -> ->.
  assert (Htwo : List.length tps = 2%nat).
  { unfold tps. now rewrite (extract_transfer_points_cons it l [] E). }
  split; [exact Htwo|]. now rewrite Hcount, Htwo.
Qed.

(** Scenario A: one walking leg gives two transfer points and one walking
    segment. *)
Example single_walk_leg :
  map name (extract_transfer_points Samples.walk_only)
  = ["Home"%string; "Zytglogge"%string] /\
  map (fun seg => (segment_id seg, mode seg, route_info seg))
    (create_route_segments Samples.walk_only
       (extract_transfer_points Samples.walk_only))
  = [("seg-1"%string, "WALK"%string, None)].
Proof. split; vm_compute; reflexivity. Qed.

(** Scenario B: WALK, TRAM, WALK gives four transfer points and three
    segments, the second one with the mode and the route of the tram leg. *)
Example walk_tram_walk_segments :
  map name (extract_transfer_points Samples.walk_tram_walk)
  = ["Home"%string; "Zytglogge"%string; "Bern, Bahnhof"%string;
     "Office"%string] /\
  map (fun seg => (segment_id seg, mode seg, duration_min seg,
                   option_map ri_route (route_info seg)))
    (create_route_segments Samples.walk_tram_walk
       (extract_transfer_points Samples.walk_tram_walk))
  = [("seg-1"%string, "WALK"%string, 50 # 10, None);
     ("seg-2"%string, "TRAM"%string, 100 # 10, Some (Some "9"%string));
     ("seg-3"%string, "WALK"%string, 21 # 10, None)].
Proof. split; vm_compute; reflexivity. Qed.

Lemma segment_count_witness :
  List.length
    (create_route_segments Samples.walk_tram_walk
       (extract_transfer_points Samples.walk_tram_walk))
  = (List.length (extract_transfer_points Samples.walk_tram_walk) - 1)%nat.
Proof.
  apply (segment_count Samples.walk_tram_walk). simpl. discriminate.
Defined.





(** Each span is the slice the aggregates of its segment are computed
    from. *)
Lemma segments_loop_spans (tps : list TransferPoint) (legs rest : list Leg) :
  forall leg_idx start tidx segs,
    exists new,
      segments_loop tps legs rest leg_idx start tidx segs = segs ++ new /\
      Forall2 (aggregates_span legs)
        (spans_loop tps rest leg_idx start tidx) new.
Proof.
  induction rest as [|leg rest IH]; intros leg_idx start tidx segs.
  - exists []. simpl. rewrite app_nil_r. split; constructor.
  - cbn [segments_loop spans_loop].
    destruct (nth_error tps tidx) as [tp|];
      [destruct (ends_at (to_info_of leg) tp)|]; try apply IH.
    destruct (IH (S leg_idx) (leg_idx + 1)%nat (tidx + 1)%nat
                (segs ++ [make_segment tps legs (List.length segs) start
                            leg_idx tidx tp]))
      as [new [Hout Hagg]].
    eexists. rewrite Hout, <- app_assoc. split; [reflexivity|].
    constructor; [|exact Hagg].
    unfold aggregates_span, make_segment. cbn [fst snd].
    destruct (primary_of (slice legs start (leg_idx + 1))).
    simpl. auto.
Qed.





End SegmentFacts.

(** ** Nearby-candidate search *)

Module ProviderFacts.

Lemma In_insert_by {A : Type} (key : A -> Q) (x y : A) (l : list A) :
  In y (insert_by key x l) <-> y = x \/ In y l.
Proof.
  induction l as [|a l IH]; simpl.
  - intuition.
  - destruct (Qltb (key x) (key a)); simpl; rewrite ?IH; intuition.
Qed.

Lemma In_fold_insert {A : Type} (key : A -> Q) (y : A) (l acc : list A) :
  In y (fold_left (fun acc x => insert_by key x acc) l acc)
  <-> In y l \/ In y acc.
Proof.
  revert acc; induction l as [|a l IH]; intros acc; simpl.
  - intuition.
  - rewrite IH, In_insert_by. intuition.
Qed.

(** Sorting neither adds nor loses a candidate. *)
Lemma In_sort_by {A : Type} (key : A -> Q) (y : A) (l : list A) :
  In y (sort_by key l) <-> In y l.
Proof. unfold sort_by. rewrite In_fold_insert. simpl. intuition. Qed.

Lemma Qleb_trans (d r1 r2 : Q) :
  r1 <= r2 -> Qleb d r1 = true -> Qleb d r2 = true.
Proof.
  unfold Qleb. rewrite !Qle_bool_iff. intros H12 H1.
  now apply Qle_trans with r1.
Qed.

Section WithMath.
Context `{FloatMath}.

(** The loop of [find_nearby_stations] keeps the stations that pass the
    filters and lie within the radius, each with its distance. *)
Lemma scan_stations_filter (lat lon r : Q) (oa ob : bool)
    (stations : list PubliBike.Station) :
  PubliBike.scan_stations lat lon stations r oa ob
  = map (fun st =>
           (st, PubliBike.calculate_distance lat lon
                  (PubliBike.latitude st) (PubliBike.longitude st)))
      (filter (fun st =>
                 negb (oa && negb (PubliBike.is_active st)) &&
                 negb (ob && negb (PubliBike.has_bikes_available st)) &&
                 Qleb (PubliBike.calculate_distance lat lon
                         (PubliBike.latitude st) (PubliBike.longitude st))
                   r)
         stations).
Proof.
  induction stations as [|a l IH]; [reflexivity|].
  cbn [PubliBike.scan_stations filter]. rewrite IH.
  destruct (oa && negb (PubliBike.is_active a)); [reflexivity|].
  destruct (ob && negb (PubliBike.has_bikes_available a)); [reflexivity|].
  cbn [negb andb].
  destruct (Qleb _ r); reflexivity.
Qed.

Lemma scan_scooters_filter (lat lon r : Q) (oa : bool) (mb : option Q)
    (scooters : list EScooter.Scooter) :
  EScooter.scan_scooters lat lon scooters r oa mb
  = map (fun sc =>
           (sc, EScooter.calculate_distance lat lon
                  (EScooter.latitude sc) (EScooter.longitude sc)))
      (filter (fun sc =>
                 negb (oa && negb (EScooter.is_available sc)) &&
                 negb (match mb with
                       | Some m => EScooter.battery_too_low sc m
                       | None => false
                       end) &&
                 Qleb (EScooter.calculate_distance lat lon
                         (EScooter.latitude sc) (EScooter.longitude sc))
                   r)
         scooters).
Proof.
  induction scooters as [|a l IH]; [reflexivity|].
  cbn [EScooter.scan_scooters filter]. rewrite IH.
  destruct (oa && negb (EScooter.is_available a)); [reflexivity|].
  destruct (match mb with
            | Some m => EScooter.battery_too_low a m
            | None => false
            end); [reflexivity|].
  cbn [negb andb].
  destruct (Qleb _ r); reflexivity.
Qed.

(** Membership in a filtered and annotated list, for a filter of the
    shape [pass && within radius]. *)
Lemma In_within {A : Type} (dist : A -> Q) (pass : A -> bool) (r : Q)
    (l : list A) (c : A * Q) :
  In c (map (fun a => (a, dist a))
          (filter (fun a => pass a && Qleb (dist a) r) l)) <->
  In (fst c) l /\ pass (fst c) = true /\ snd c = dist (fst c) /\
  Qleb (snd c) r = true.
Proof.
  rewrite in_map_iff. split.
  - intros [a [<- Hin]]. apply filter_In in Hin.
    destruct Hin as [Hin Hk]. apply andb_true_iff in Hk.
    cbn [fst snd]. tauto.
  - destruct c as [a d]. cbn [fst snd]. intros [Hin [Hp [-> Hr]]].
    exists a. split; [reflexivity|]. apply filter_In.
    split; [exact Hin|]. now rewrite Hp, Hr.
Qed.

Lemma find_nearby_stations_within (lat lon r : Q) (oa ob : bool)
    (stations : list PubliBike.Station) (st : PubliBike.Station) (d : Q) :
  In (st, d) (PubliBike.find_nearby_stations lat lon stations r oa ob) ->
  d <= r.
Proof.
  unfold PubliBike.find_nearby_stations. rewrite scan_stations_filter.
  intros Hc. apply In_sort_by, In_within in Hc. cbn [fst snd] in Hc.
  apply Qle_bool_iff. tauto.
Qed.

(** [get_nearby_bikes] returns stations with bikes, within the radius. *)
Lemma bikes_details_In (client : PubliBike.PubliBikeClient)
    (nearby : list (PubliBike.Station * Q)) (st : PubliBike.Station)
    (d : Q) :
  In (st, d) (PubliBike.bikes_details client nearby) ->
  PubliBike.has_bikes_available st = true /\
  exists st0, In (st0, d) nearby.
Proof.
  induction nearby as [|[st0 d0] rest IH];
    cbn [PubliBike.bikes_details]; [contradiction|].
  destruct (PubliBike.get_station_details client (PubliBike.id st0))
    as [detailed|e].
  - destruct (PubliBike.has_bikes_available detailed) eqn:Hb.
    + intros [[= <- <-] | Hin].
      * split; [exact Hb | exists st0; now left].
      * destruct (IH Hin) as [Hh [x Hx]]. split; [exact Hh|].
        exists x. now right.
    + intros Hin. destruct (IH Hin) as [Hh [x Hx]]. split; [exact Hh|].
      exists x. now right.
  - intros Hin. destruct (IH Hin) as [Hh [x Hx]]. split; [exact Hh|].
    exists x. now right.
Qed.

Lemma get_nearby_bikes_ok (lat lon r : Q)
    (client : PubliBike.PubliBikeClient)
    (found : list (PubliBike.Station * Q)) (st : PubliBike.Station)
    (d : Q) :
  PubliBike.get_nearby_bikes lat lon r client = Ok found ->
  In (st, d) found ->
  PubliBike.has_bikes_available st = true /\ d <= r.
Proof.
  unfold PubliBike.get_nearby_bikes.
  destruct (PubliBike.get_stations_overview client) as [stations|e];
    [|discriminate].
  intros [= <-] Hin. apply bikes_details_In in Hin.
  destruct Hin as [Hb [st0 Hin]]. split; [exact Hb|].
  now apply find_nearby_stations_within in Hin.
Qed.

Lemma return_details_In (client : PubliBike.PubliBikeClient)
    (nearby : list (PubliBike.Station * Q)) (st : PubliBike.Station)
    (d : Q) :
  In (st, d) (PubliBike.return_details client nearby) ->
  exists st0, In (st0, d) nearby.
Proof.
  induction nearby as [|[st0 d0] rest IH];
    cbn [PubliBike.return_details]; [contradiction|].
  destruct (PubliBike.get_station_details client (PubliBike.id st0))
    as [detailed|e];
    (intros [[= <- <-] | Hin];
     [exists st0; now left
     |destruct (IH Hin) as [x Hx]; exists x; now right]).
Qed.

Lemma get_nearby_return_stations_ok (lat lon r : Q)
    (client : PubliBike.PubliBikeClient)
    (found : list (PubliBike.Station * Q)) (st : PubliBike.Station)
    (d : Q) :
  PubliBike.get_nearby_return_stations lat lon r client = Ok found ->
  In (st, d) found -> d <= r.
Proof.
  unfold PubliBike.get_nearby_return_stations.
  destruct (PubliBike.get_stations_overview client) as [stations|e];
    [|discriminate].
  intros [= <-] Hin. apply return_details_In in Hin.
  destruct Hin as [st0 Hin].
  now apply find_nearby_stations_within in Hin.
Qed.

Lemma with_distance_In (lat lon : Q) (mb : option Q)
    (scooters : list EScooter.Scooter) (sc : EScooter.Scooter) (d : Q) :
  In (sc, d) (EScooter.with_distance lat lon scooters mb) ->
  In sc scooters /\
  d = EScooter.calculate_distance lat lon (EScooter.latitude sc)
        (EScooter.longitude sc).
Proof.
  induction scooters as [|a l IH]; cbn [EScooter.with_distance];
    [contradiction|].
  destruct (match mb with
            | Some m => EScooter.battery_too_low a m
            | None => false
            end).
  - intros Hin. destruct (IH Hin). split; [now right | assumption].
  - intros [[= <- <-] | Hin]; [split; [now left | reflexivity]|].
    destruct (IH Hin). split; [now right | assumption].
Qed.

(** [get_nearby_scooters] returns scooters that are available, each with its
    distance from the centre. *)
Lemma get_nearby_scooters_ok (lat lon r : Q)
    (client : EScooter.VoiScooterClient) (mb : option Q)
    (found : list (EScooter.Scooter * Q)) (sc : EScooter.Scooter)
    (d : Q) :
  EScooter.get_nearby_scooters lat lon r client mb = Ok found ->
  In (sc, d) found ->
  EScooter.is_available sc = true /\
  d = EScooter.calculate_distance lat lon (EScooter.latitude sc)
        (EScooter.longitude sc).
Proof.
  unfold EScooter.get_nearby_scooters,
    EScooter.get_available_scooters_near_location.
  destruct (EScooter.get_scooters_near_location client lat lon r)
    as [all_scooters|e]; [|discriminate].
  intros [= <-] Hin. apply In_sort_by, with_distance_In in Hin.
  destruct Hin as [Hin Hd]. split; [|exact Hd].
  now apply filter_In in Hin.
Qed.

(** C8: for a fixed candidate list, centre and filters, the nearby search
    of both providers is monotone in the radius, and every candidate it
    returns carries its Haversine distance from the centre, which is at
    most the radius of the query. *)
Theorem nearby_monotone_in_radius (lat lon r1 r2 : Q)
    (stations : list PubliBike.Station)
    (only_active only_with_bikes : bool)
    (scooters : list EScooter.Scooter) (only_available : bool)
    (min_battery_percentage : option Q) :
  r1 <= r2 ->
  (forall c,
     In c (PubliBike.find_nearby_stations lat lon stations r1 only_active
             only_with_bikes) ->
     In c (PubliBike.find_nearby_stations lat lon stations r2 only_active
             only_with_bikes)) /\
  (forall c,
     In c (EScooter.find_nearby_scooters lat lon scooters r1
             only_available min_battery_percentage) ->
     In c (EScooter.find_nearby_scooters lat lon scooters r2
             only_available min_battery_percentage)) /\
  (forall st d,
     In (st, d) (PubliBike.find_nearby_stations lat lon stations r1
                   only_active only_with_bikes) ->
     d = PubliBike.calculate_distance lat lon (PubliBike.latitude st)
           (PubliBike.longitude st) /\ d <= r1) /\
  (forall sc d,
     In (sc, d) (EScooter.find_nearby_scooters lat lon scooters r1
                   only_available min_battery_percentage) ->
     d = EScooter.calculate_distance lat lon (EScooter.latitude sc)
           (EScooter.longitude sc) /\ d <= r1).
Proof.
  intros H12.
  unfold PubliBike.find_nearby_stations, EScooter.find_nearby_scooters.
  rewrite !scan_stations_filter, !scan_scooters_filter.
  split; [|split; [|split]].
  - intros c. rewrite !In_sort_by, !In_within.
    intros [Hin [Hp [Hd Hr]]]. repeat split; auto.
    now apply Qleb_trans with r1.
  - intros c. rewrite !In_sort_by, !In_within.
    intros [Hin [Hp [Hd Hr]]]. repeat split; auto.
    now apply Qleb_trans with r1.
  - intros st d Hc. apply In_sort_by, In_within in Hc.
    cbn [fst snd] in Hc. destruct Hc as [_ [_ [Hd Hr]]].
    split; [exact Hd | now apply Qle_bool_iff].
  - intros sc d Hc. apply In_sort_by, In_within in Hc.
    cbn [fst snd] in Hc. destruct Hc as [_ [_ [Hd Hr]]].
    split; [exact Hd | now apply Qle_bool_iff].
Qed.
End WithMath.

Lemma nearby_monotone_in_radius_witness :
  300 <= 500 /\
  forall c,
    In c (PubliBike.find_nearby_stations (H := decimal_math)
            (4693 # 100) (742 # 100) Samples.stations 300 true false) ->
    In c (PubliBike.find_nearby_stations (H := decimal_math)
            (4693 # 100) (742 # 100) Samples.stations 500 true false).
Proof.
  assert (Hle : 300 <= 500) by (unfold Qle; simpl; lia).
  split; [exact Hle|].
  exact (proj1 (nearby_monotone_in_radius (H := decimal_math)
                  (4693 # 100) (742 # 100) 300 500 Samples.stations true
                  false Samples.scooters true None Hle)).
Defined.

End ProviderFacts.

(** ** Alternatives at a transfer point *)

Module AlternativeFacts.
Import Otp RouteSegmentation PyFacts ProviderFacts.

Section WithMath.
Context `{FloatMath}.

Lemma find_alternative_eq (tp dest : TransferPoint)
    (pb : option PubliBike.PubliBikeClient)
    (es : option EScooter.VoiScooterClient) (otp : option OTPClient)
    (r : Q) :
  find_alternative_modes_at_transfer tp dest pb es otp r
  = publibike_alternatives tp dest pb otp r
    ++ escooter_alternatives tp dest es otp r.
Proof. reflexivity. Qed.

Lemma bike_alternative_fields (otp : option OTPClient)
    (st st' : PubliBike.Station) (d d' : Q) :
  alt_type (bike_alternative otp st st' d d') = "bike_share"%string /\
  alt_duration_min (bike_alternative otp st st' d d')
  = fst (bike_route_estimate otp st st' d d') /\
  alt_distance_km (bike_alternative otp st st' d d')
  = snd (bike_route_estimate otp st st' d d').
Proof.
  unfold bike_alternative.
  destruct (bike_route_estimate otp st st' d d'); simpl. auto.
Qed.

Lemma scooter_alternative_fields (otp : option OTPClient)
    (sc : EScooter.Scooter) (w : Q) (dest : TransferPoint) :
  let alt := scooter_alternative otp sc w dest in
  alt_type alt = "scooter_share"%string /\
  alt_duration_min alt
  = fst (fst (scooter_route_estimate otp sc w dest)) /\
  alt_est_cost_chf alt = snd (scooter_route_estimate otp sc w dest) /\
  alt_payload alt
  = ScooterPayload
      {| sc_id := EScooter.vehicle_id sc;
         sc_distance_m := int w;
         sc_battery_percentage :=
           get (EScooter.get_battery_percentage sc) 100;
         sc_provider := EScooter.provider_name sc;
         sc_latitude := EScooter.latitude sc;
         sc_longitude := EScooter.longitude sc |} /\
  alt_summary alt
  = match EScooter.get_battery_percentage sc with
    | Some b =>
        ("Voi Scooter (" ++ str_int (int w) ++ "m away, "
           ++ format_0f b ++ "% battery)")%string
    | None =>
        ("Voi Scooter (" ++ str_int (int w) ++ "m away)")%string
    end.
Proof.
  unfold scooter_alternative.
  destruct (scooter_route_estimate otp sc w dest) as [[a b] c].
  destruct (EScooter.get_battery_percentage sc); simpl; auto.
Qed.

(** The PubliBike block adds nothing, or one alternative built from the
    nearest station with bikes and the nearest return station. *)
Lemma publibike_alternatives_cases (tp dest : TransferPoint)
    (pb : option PubliBike.PubliBikeClient) (otp : option OTPClient)
    (r : Q) :
  publibike_alternatives tp dest pb otp r = [] \/
  exists pc st d rest st' d' rest',
    pb = Some pc /\
    PubliBike.get_nearby_bikes (latitude tp) (longitude tp) r pc
    = Ok ((st, d) :: rest) /\
    PubliBike.get_nearby_return_stations (latitude dest)
      (longitude dest) r pc = Ok ((st', d') :: rest') /\
    publibike_alternatives tp dest pb otp r
    = [bike_alternative otp st st' d d'].
Proof.
  unfold publibike_alternatives. destruct pb as [pc|]; [|now left].
  destruct (PubliBike.get_nearby_bikes (latitude tp) (longitude tp) r pc)
    as [[|[st d] rest]|e] eqn:Eb;
    destruct (PubliBike.get_nearby_return_stations (latitude dest)
                (longitude dest) r pc)
    as [[|[st' d'] rest']|e'] eqn:Er;
    try (now left).
  right. exists pc, st, d, rest, st', d', rest'. auto.
Qed.

Lemma escooter_alternatives_type (tp dest : TransferPoint)
    (es : option EScooter.VoiScooterClient) (otp : option OTPClient)
    (r : Q) (alt : Alternative) :
  In alt (escooter_alternatives tp dest es otp r) ->
  alt_type alt = "scooter_share"%string.
Proof.
  unfold escooter_alternatives. destruct es as [ec|]; [|contradiction].
  destruct (EScooter.get_nearby_scooters (latitude tp) (longitude tp) r
              ec None) as [[|[sc w] rest]|e]; try contradiction.
  intros [<- | []]. apply scooter_alternative_fields.
Qed.

(** C6: a bike-share alternative in the result comes from a station with
    bikes found near the transfer point and a return station found near
    the destination; without a return station there is no bike-share
    alternative; a scooter alternative needs no return station and is in
    the result whenever the scooter lookup finds an available scooter
    near the transfer point. *)
Theorem bike_needs_return_dock_scooter_does_not
    (tp dest : TransferPoint)
    (pb : option PubliBike.PubliBikeClient)
    (es : option EScooter.VoiScooterClient) (otp : option OTPClient)
    (r : Q) :
  let result := find_alternative_modes_at_transfer tp dest pb es otp r in
  (forall alt, In alt result -> alt_type alt = "bike_share"%string ->
     exists pc st d rest st' d' rest',
       pb = Some pc /\
       PubliBike.get_nearby_bikes (latitude tp) (longitude tp) r pc
       = Ok ((st, d) :: rest) /\
       PubliBike.has_bikes_available st = true /\ d <= r /\
       PubliBike.get_nearby_return_stations (latitude dest)
         (longitude dest) r pc = Ok ((st', d') :: rest') /\
       d' <= r /\
       alt = bike_alternative otp st st' d d') /\
  (forall pc, pb = Some pc ->
     PubliBike.get_nearby_return_stations (latitude dest)
       (longitude dest) r pc = Ok [] ->
     forall alt, In alt result -> alt_type alt <> "bike_share"%string) /\
  (forall ec sc w rest, es = Some ec ->
     EScooter.get_nearby_scooters (latitude tp) (longitude tp) r ec None
     = Ok ((sc, w) :: rest) ->
     EScooter.is_available sc = true /\
     In (scooter_alternative otp sc w dest) result /\
     alt_type (scooter_alternative otp sc w dest)
     = "scooter_share"%string).
Proof.
  intros result. unfold result. rewrite find_alternative_eq.
  split; [|split].
  - intros alt Hin Hty. apply in_app_or in Hin.
    destruct Hin as [Hin | Hin];
      [|apply escooter_alternatives_type in Hin; rewrite Hin in Hty;
        discriminate].
    destruct (publibike_alternatives_cases tp dest pb otp r)
      as [E | [pc [st [d [rest [st' [d' [rest' [Ep [Eb [Er E]]]]]]]]]]];
      rewrite E in Hin; [contradiction|].
    destruct Hin as [<- | []].
    exists pc, st, d, rest, st', d', rest'.
    destruct (get_nearby_bikes_ok _ _ _ _ _ st d Eb (or_introl eq_refl))
      as [Hb Hd].
    pose proof (get_nearby_return_stations_ok _ _ _ _ _ st' d' Er
                  (or_introl eq_refl)) as Hd'.
    repeat split; auto.
  - intros pc Ep Er alt Hin Hty. apply in_app_or in Hin.
    destruct Hin as [Hin | Hin];
      [|apply escooter_alternatives_type in Hin; rewrite Hin in Hty;
        discriminate].
    destruct (publibike_alternatives_cases tp dest pb otp r)
      as [E | [pc' [st [d [rest [st' [d' [rest' [Ep' [Eb [Er' E]]]]]]]]]]];
      rewrite E in Hin; [contradiction|].
    rewrite Ep in Ep'. injection Ep' as <-. rewrite Er in Er'.
    discriminate.
  - intros ec sc w rest Ee Es. split; [|split].
    + apply (get_nearby_scooters_ok _ _ _ _ _ _ sc w Es). now left.
    + apply in_or_app. right. unfold escooter_alternatives.
      rewrite Ee, Es. now left.
    + apply scooter_alternative_fields.
Qed.

(** C1, what the code does: when a station with bikes and a return
    station are found and the routing call for the bike route fails (it
    raises, or there is no routing client), the bike-share alternative is
    produced, its distance is null, and its duration is null as well:
    no default of 18 minutes is filled in. *)
Theorem bike_fallback_duration_is_null (tp dest : TransferPoint)
    (pc : PubliBike.PubliBikeClient)
    (es : option EScooter.VoiScooterClient) (otp : option OTPClient)
    (r : Q) (st st' : PubliBike.Station) (d d' : Q)
    (rest rest' : list (PubliBike.Station * Q)) :
  PubliBike.get_nearby_bikes (latitude tp) (longitude tp) r pc
  = Ok ((st, d) :: rest) ->
  PubliBike.get_nearby_return_stations (latitude dest) (longitude dest) r
    pc = Ok ((st', d') :: rest') ->
  (forall oc, otp = Some oc ->
     exists e,
       plan_bicycle oc (PubliBike.latitude st) (PubliBike.longitude st)
         (PubliBike.latitude st') (PubliBike.longitude st') 1
       = Raise e) ->
  exists alt,
    find_alternative_modes_at_transfer tp dest (Some pc) es otp r
    = alt :: escooter_alternatives tp dest es otp r /\
    alt_type alt = "bike_share"%string /\
    alt_duration_min alt = None /\
    alt_duration_min alt <> Some 18 /\
    alt_distance_km alt = None.
Proof.
  intros Eb Er Hotp. exists (bike_alternative otp st st' d d').
  rewrite find_alternative_eq. unfold publibike_alternatives.
  rewrite Eb, Er. split; [reflexivity|].
  destruct (bike_alternative_fields otp st st' d d') as [Hty [Hdur Hkm]].
  assert (He : bike_route_estimate otp st st' d d' = (None, None)).
  { unfold bike_route_estimate. destruct otp as [oc|]; [|reflexivity].
    destruct (Hotp oc eq_refl) as [e ->]. reflexivity. }
  rewrite He in Hdur, Hkm. rewrite Hdur, Hkm.
  repeat split; auto. discriminate.
Qed.


(** C10: a scooter alternative for a scooter without a battery level
    reports [battery_percentage = 100] in its payload, and its summary
    has no battery clause. *)
Theorem unknown_battery_reported_full (tp dest : TransferPoint)
    (pb : option PubliBike.PubliBikeClient)
    (ec : EScooter.VoiScooterClient) (otp : option OTPClient) (r : Q)
    (sc : EScooter.Scooter) (w : Q)
    (rest : list (EScooter.Scooter * Q)) :
  EScooter.get_nearby_scooters (latitude tp) (longitude tp) r ec None
  = Ok ((sc, w) :: rest) ->
  EScooter.battery_level sc = None ->
  exists alt info,
    find_alternative_modes_at_transfer tp dest pb (Some ec) otp r
    = publibike_alternatives tp dest pb otp r ++ [alt] /\
    alt_payload alt = ScooterPayload info /\
    sc_id info = EScooter.vehicle_id sc /\
    sc_battery_percentage info = 100 /\
    alt_summary alt
    = ("Voi Scooter (" ++ str_int (int w) ++ "m away)")%string /\
    contains "battery" (alt_summary alt) = false /\
    contains "%" (alt_summary alt) = false.
Proof.
  intros Es Eb.
  destruct (scooter_alternative_fields otp sc w dest)
    as [_ [_ [_ [Hpay Hsum]]]].
  unfold EScooter.get_battery_percentage in Hpay, Hsum.
  rewrite Eb in Hpay, Hsum. cbn [get] in Hpay.
  eexists. eexists. rewrite find_alternative_eq.
  unfold escooter_alternatives. rewrite Es.
  split; [reflexivity|]. split; [exact Hpay|].
  split; [reflexivity|]. split; [reflexivity|]. split; [exact Hsum|].
  rewrite Hsum.
  assert (Hchars : forall c,
             In c (list_ascii_of_string
                     ("Voi Scooter (" ++ str_int (int w) ++ "m away)")) ->
             c <> "b"%char /\ c <> "%"%char).
  { intros c. rewrite !list_ascii_of_string_app, !in_app_iff.
    intros [Hc | [Hc | Hc]].
    - simpl in Hc.
      repeat (destruct Hc as [<- | Hc];
              [split; discriminate|]); contradiction.
    - apply str_int_chars in Hc. unfold digit_or_minus in Hc.
      simpl in Hc.
      repeat (destruct Hc as [<- | Hc];
              [split; discriminate|]); contradiction.
    - simpl in Hc.
      repeat (destruct Hc as [<- | Hc];
              [split; discriminate|]); contradiction. }
  split; apply not_true_iff_false; intros Hc;
    apply contains_first_char, Hchars in Hc; tauto.
Qed.
(** With every lookup raising, no alternative is found anywhere. *)
Lemma find_alternative_all_fail (tp dest : TransferPoint)
    (pb : option PubliBike.PubliBikeClient)
    (es : option EScooter.VoiScooterClient) (otp : option OTPClient)
    (r : Q) :
  (forall pc, pb = Some pc -> forall lat lon radius,
     exists e, PubliBike.get_nearby_bikes lat lon radius pc = Raise e) ->
  (forall ec, es = Some ec -> forall lat lon radius,
     exists e,
       EScooter.get_nearby_scooters lat lon radius ec None = Raise e) ->
  find_alternative_modes_at_transfer tp dest pb es otp r = [].
Proof.
  intros Hpb Hes. rewrite find_alternative_eq.
  unfold publibike_alternatives, escooter_alternatives.
  destruct pb as [pc|].
  - destruct (Hpb pc eq_refl (latitude tp) (longitude tp) r) as [e ->].
    destruct es as [ec|]; [|reflexivity].
    now destruct (Hes ec eq_refl (latitude tp) (longitude tp) r)
      as [e' ->].
  - destruct es as [ec|]; [|reflexivity].
    now destruct (Hes ec eq_refl (latitude tp) (longitude tp) r)
      as [e' ->].
Qed.

Lemma augment_loop_all_fail (tps : list TransferPoint)
    (pb : option PubliBike.PubliBikeClient)
    (es : option EScooter.VoiScooterClient) (otp : option OTPClient)
    (n : nat) (segments : list RouteSegment) :
  (forall tp dest r,
     find_alternative_modes_at_transfer tp dest pb es otp r = []) ->
  forall i, augment_loop tps pb es otp n i segments = segments.
Proof.
  intros Hnone. induction segments as [|seg rest IH]; intros i;
    [reflexivity|].
  cbn [augment_loop]. rewrite IH. f_equal.
  unfold augment_segment. rewrite !Hnone.
  destruct (i =? 0)%nat; destruct (i <? n - 1)%nat; reflexivity.
Qed.

(** The segment builder attaches no alternatives. *)
Lemma segments_loop_plain (tps : list TransferPoint)
    (legs rest : list Leg) :
  forall leg_idx start tidx segs,
    Forall (fun seg => alternatives_available seg = false /\
                       alternatives seg = []) segs ->
    Forall (fun seg => alternatives_available seg = false /\
                       alternatives seg = [])
      (segments_loop tps legs rest leg_idx start tidx segs).
Proof.
  induction rest as [|leg rest IH]; intros leg_idx start tidx segs Hp;
    [exact Hp|].
  cbn [segments_loop].
  destruct (nth_error tps tidx) as [tp|];
    [destruct (ends_at (to_info_of leg) tp)|]; try (now apply IH).
  apply IH. apply Forall_app. split; [exact Hp|].
  constructor; [|constructor]. unfold make_segment.
  destruct (primary_of (slice legs start (leg_idx + 1))). simpl. auto.
Qed.

(** C5: if every provider lookup raises, the augmentation returns the
    segmented primary route: the transfer points and the segments of the
    segment builder, every segment with [alternatives_available] false
    and an empty list of alternatives, and for an itinerary with legs
    one segment for every transfer point after the origin.  The
    augmentation is a total function: nothing a provider raises leaves
    it. *)
Theorem providers_down_route_intact (it : Itinerary)
    (pb : option PubliBike.PubliBikeClient)
    (es : option EScooter.VoiScooterClient) (otp : option OTPClient) :
  (forall pc, pb = Some pc -> forall lat lon radius,
     exists e, PubliBike.get_nearby_bikes lat lon radius pc = Raise e) ->
  (forall ec, es = Some ec -> forall lat lon radius,
     exists e,
       EScooter.get_nearby_scooters lat lon radius ec None = Raise e) ->
  let out := analyze_route_with_alternatives it pb es otp in
  let tps := extract_transfer_points it in
  out_transfer_points out = map view_point tps /\
  out_segments out = map view_segment (create_route_segments it tps) /\
  total_segments out = List.length (create_route_segments it tps) /\
  Forall (fun sv => sv_alternatives_available sv = false /\
                    sv_alternatives sv = []) (out_segments out) /\
  (get (itin_legs it) [] <> [] ->
     List.length (out_segments out) = (List.length tps - 1)%nat).
Proof.
  intros Hpb Hes out tps.
  assert (Hsame : augment_loop tps pb es otp
                    (List.length (create_route_segments it tps)) 0
                    (create_route_segments it tps)
                  = create_route_segments it tps).
  { apply augment_loop_all_fail. intros tp dest r.
    now apply find_alternative_all_fail. }
  unfold out, analyze_route_with_alternatives. fold tps.
  cbn [out_transfer_points out_segments total_segments].
  rewrite Hsame. split; [reflexivity|]. split; [reflexivity|].
  split; [reflexivity|]. split.
  - apply Forall_map. unfold create_route_segments.
    destruct (List.length tps <? 2)%nat; [constructor|].
    cbn [view_segment sv_alternatives_available sv_alternatives].
    apply (segments_loop_plain tps _ _ 0%nat 0%nat 1%nat []).
    constructor.
  - intros Hne. rewrite length_map.
    destruct (itin_legs it) as [[|first rest]|] eqn:E; simpl in Hne;
      try congruence.
    apply (SegmentFacts.create_route_segments_length it first rest E).
Qed.
End WithMath.

(** Scenario C: bikes and one available scooter at the transfer point, no
    return station near the destination. *)
Lemma bike_needs_return_dock_scooter_does_not_witness :
  (forall alt,
     In alt (find_alternative_modes_at_transfer (H := decimal_math)
               (Samples.point Samples.stop_b) (Samples.point Samples.home)
               (Some Samples.publibike_up) (Some Samples.escooter_up) None
               300) ->
     alt_type alt <> "bike_share"%string) /\
  exists sc w,
    In (scooter_alternative None sc w (Samples.point Samples.home))
      (find_alternative_modes_at_transfer (H := decimal_math)
         (Samples.point Samples.stop_b) (Samples.point Samples.home)
         (Some Samples.publibike_up) (Some Samples.escooter_up) None 300).
Proof.
  pose proof (bike_needs_return_dock_scooter_does_not_witness_aux :=
                bike_needs_return_dock_scooter_does_not
                  (H := decimal_math) (Samples.point Samples.stop_b)
                  (Samples.point Samples.home) (Some Samples.publibike_up)
                  (Some Samples.escooter_up) None 300).
  cbv zeta in bike_needs_return_dock_scooter_does_not_witness_aux.
  destruct bike_needs_return_dock_scooter_does_not_witness_aux
    as [_ [Hnone Hscooter]].
  split.
  - apply (Hnone Samples.publibike_up eq_refl). vm_compute. reflexivity.
  - assert (Es : exists sc w rest,
               EScooter.get_nearby_scooters (H := decimal_math)
                 (latitude (Samples.point Samples.stop_b))
                 (longitude (Samples.point Samples.stop_b)) 300
                 Samples.escooter_up None = Ok ((sc, w) :: rest)).
    { vm_compute. eexists _, _, _. reflexivity. }
    destruct Es as [sc [w [rest Es]]]. exists sc, w.
    exact (proj1 (proj2 (Hscooter Samples.escooter_up sc w rest eq_refl
                           Es))).
Defined.

(** Scenario D: the routing request for the bike route times out. *)
Lemma bike_fallback_duration_is_null_witness :
  exists alt,
    find_alternative_modes_at_transfer (H := decimal_math)
      (Samples.point Samples.stop_b) (Samples.point Samples.office)
      (Some Samples.publibike_up) None (Some Samples.otp_down) 300
    = alt :: escooter_alternatives (H := decimal_math)
               (Samples.point Samples.stop_b)
               (Samples.point Samples.office) None (Some Samples.otp_down)
               300 /\
    alt_type alt = "bike_share"%string /\
    alt_duration_min alt = None /\
    alt_duration_min alt <> Some 18 /\
    alt_distance_km alt = None.
Proof.
  assert (Eb : exists st d rest,
             PubliBike.get_nearby_bikes (H := decimal_math)
               (latitude (Samples.point Samples.stop_b))
               (longitude (Samples.point Samples.stop_b)) 300
               Samples.publibike_up = Ok ((st, d) :: rest)).
  { vm_compute. eexists _, _, _. reflexivity. }
  assert (Er : exists st d rest,
             PubliBike.get_nearby_return_stations (H := decimal_math)
               (latitude (Samples.point Samples.office))
               (longitude (Samples.point Samples.office)) 300
               Samples.publibike_up = Ok ((st, d) :: rest)).
  { vm_compute. eexists _, _, _. reflexivity. }
  destruct Eb as [st [d [rest Eb]]]. destruct Er as [st' [d' [rest' Er]]].
  apply (bike_fallback_duration_is_null (H := decimal_math) _ _ _ None
           (Some Samples.otp_down) _ st st' d d' rest rest' Eb Er).
  intros oc [= <-]. exists "timeout"%string. reflexivity.
Defined.

(** The same input evaluated: one bike-share alternative, duration and
    distance null, where the claim has 18 minutes. *)
Example bike_fallback_evaluated :
  map (fun alt => (alt_type alt, alt_duration_min alt, alt_distance_km alt))
    (find_alternative_modes_at_transfer (H := decimal_math)
       (Samples.point Samples.stop_b) (Samples.point Samples.office)
       (Some Samples.publibike_up) None (Some Samples.otp_down) 300)
  = [("bike_share"%string, None, None)].
Proof. vm_compute. reflexivity. Qed.


Lemma unknown_battery_reported_full_witness :
  exists alt info,
    In alt (find_alternative_modes_at_transfer (H := decimal_math)
              (Samples.point Samples.stop_b) (Samples.point Samples.office)
              None (Some Samples.escooter_up) None 300) /\
    alt_payload alt = ScooterPayload info /\
    sc_battery_percentage info = 100 /\
    alt_summary alt = "Voi Scooter (0m away)"%string.
Proof.
  assert (Es : EScooter.get_nearby_scooters (H := decimal_math)
                 (latitude (Samples.point Samples.stop_b))
                 (longitude (Samples.point Samples.stop_b)) 300
                 Samples.escooter_up None
               = Ok [(Samples.scooter "voi-1" (4693 # 100) (742 # 100) None
                        false, 0 # 1000000000000000)]).
  { vm_compute. reflexivity. }
  destruct (unknown_battery_reported_full (H := decimal_math)
              (Samples.point Samples.stop_b) (Samples.point Samples.office)
              None Samples.escooter_up None 300 _ _ [] Es eq_refl)
    as [alt [info [Hres [Hpay [_ [Hpct [Hsum _]]]]]]].
  exists alt, info. split; [rewrite Hres; apply in_or_app; right; now left|].
  split; [exact Hpay|]. split; [exact Hpct|]. rewrite Hsum. reflexivity.
Defined.

Lemma providers_down_route_intact_witness :
  map sv_alternatives_available
    (out_segments
       (analyze_route_with_alternatives (H := decimal_math)
          Samples.walk_tram_walk (Some Samples.publibike_down)
          (Some Samples.escooter_down) (Some Samples.otp_down)))
  = [false; false; false].
Proof.
  assert (Hpb : forall pc, Some Samples.publibike_down = Some pc ->
            forall lat lon radius, exists e,
              PubliBike.get_nearby_bikes (H := decimal_math) lat lon radius
                pc = Raise e).
  { intros pc [= <-] lat lon radius. exists "timeout"%string.
    reflexivity. }
  assert (Hes : forall ec, Some Samples.escooter_down = Some ec ->
            forall lat lon radius, exists e,
              EScooter.get_nearby_scooters (H := decimal_math) lat lon
                radius ec None = Raise e).
  { intros ec [= <-] lat lon radius. exists "timeout"%string.
    reflexivity. }
  destruct (providers_down_route_intact (H := decimal_math)
              Samples.walk_tram_walk (Some Samples.publibike_down)
              (Some Samples.escooter_down) (Some Samples.otp_down) Hpb Hes)
    as [_ [Hsegs _]].
  rewrite Hsegs. vm_compute. reflexivity.
Defined.

End AlternativeFacts.

(** ** The nearby searches: order, filters, failures *)

Module SearchFacts.
Import Shape ProviderFacts.

Lemma Qltb_true_le (x y : Q) : Qltb x y = true -> x <= y.
Proof.
  unfold Qltb. rewrite negb_true_iff. intros Hn.
  apply Qlt_le_weak, Qnot_le_lt. intros Hle.
  apply Qle_bool_iff in Hle. congruence.
Qed.

Lemma Qltb_false_le (x y : Q) : Qltb x y = false -> y <= x.
Proof.
  unfold Qltb. rewrite negb_false_iff. apply Qle_bool_iff.
Qed.

Section Sorting.
Context {A : Type} (key : A -> Q).

Lemma insert_by_sorted (x : A) (l : list A) :
  StronglySorted (fun a b => key a <= key b) l ->
  StronglySorted (fun a b => key a <= key b) (insert_by key x l).
Proof.
  induction l as [|y l IH]; intros Hs; simpl.
  - repeat constructor.
  - inversion Hs as [|? ? Hl Hy]; subst.
    destruct (Qltb (key x) (key y)) eqn:Hxy.
    + constructor; [exact Hs|]. constructor.
      * now apply Qltb_true_le.
      * apply Qltb_true_le in Hxy. eapply Forall_impl; [|exact Hy].
        intros b Hb. simpl in Hb. now apply Qle_trans with (key y).
    + constructor; [now apply IH|].
      apply Forall_forall. intros b Hb. apply In_insert_by in Hb.
      destruct Hb as [-> | Hb]; [now apply Qltb_false_le|].
      rewrite Forall_forall in Hy. now apply Hy.
Qed.

Lemma fold_insert_sorted (l acc : list A) :
  StronglySorted (fun a b => key a <= key b) acc ->
  StronglySorted (fun a b => key a <= key b)
    (fold_left (fun acc x => insert_by key x acc) l acc).
Proof.
  revert acc; induction l as [|x l IH]; intros acc Hs; simpl; auto.
  apply IH. now apply insert_by_sorted.
Qed.

(** The sort returns its input in ascending order of the key. *)
Lemma sort_by_sorted (l : list A) :
  StronglySorted (fun a b => key a <= key b) (sort_by key l).
Proof. apply fold_insert_sorted. constructor. Qed.

Lemma insert_by_perm (x : A) (l : list A) :
  Permutation (insert_by key x l) (x :: l).
Proof.
  induction l as [|y l IH]; simpl; [reflexivity|].
  destruct (Qltb (key x) (key y)); [reflexivity|].
  rewrite IH. apply perm_swap.
Qed.

Lemma fold_insert_perm (l acc : list A) :
  Permutation (fold_left (fun acc x => insert_by key x acc) l acc) (l ++ acc).
Proof.
  revert acc; induction l as [|x l IH]; intros acc; simpl; [reflexivity|].
  rewrite IH, insert_by_perm. symmetry. apply Permutation_middle.
Qed.

(** The sort neither loses nor duplicates an element. *)
Lemma sort_by_perm (l : list A) : Permutation (sort_by key l) l.
Proof. unfold sort_by. rewrite fold_insert_perm. now rewrite app_nil_r. Qed.
End Sorting.


Lemma battery_ok_iff (sc : EScooter.Scooter) (m : Q) :
  EScooter.battery_too_low sc m = false <->
  exists b, EScooter.battery_level sc = Some b /\ m <= b.
Proof.
  unfold EScooter.battery_too_low, EScooter.get_battery_percentage.
  destruct (EScooter.battery_level sc) as [b|].
  - split.
    + intros Hb. exists b. split; [reflexivity | now apply Qltb_false_le].
    + intros [b' [[= <-] Hle]]. unfold Qltb. apply negb_false_iff.
      now apply Qle_bool_iff.
  - split; [discriminate | intros [b [Hb _]]; discriminate].
Qed.

Section WithMath.
Context `{FloatMath}.

(** X1: [find_nearby_stations] returns exactly the stations of the list that
    pass the enabled filters (active, with bikes) and lie within the radius,
    each paired with its distance from the centre. *)
Theorem find_nearby_stations_exactly (lat lon r : Q)
    (only_active only_with_bikes : bool)
    (stations : list PubliBike.Station) (st : PubliBike.Station) (d : Q) :
  In (st, d)
    (PubliBike.find_nearby_stations lat lon stations r only_active
       only_with_bikes) <->
  In st stations /\
  (only_active = true -> PubliBike.is_active st = true) /\
  (only_with_bikes = true -> PubliBike.has_bikes_available st = true) /\
  d = PubliBike.calculate_distance lat lon (PubliBike.latitude st)
        (PubliBike.longitude st) /\
  d <= r.
Proof.
  unfold PubliBike.find_nearby_stations.
  rewrite scan_stations_filter, In_sort_by, In_within. cbn [fst snd].
  rewrite andb_true_iff, !negb_true_iff, <- Qle_bool_iff.
  unfold Qleb.
  destruct only_active, only_with_bikes,
    (PubliBike.is_active st), (PubliBike.has_bikes_available st);
    cbn [andb negb]; intuition congruence.
Qed.

(** X2: [find_nearby_scooters] returns exactly the scooters of the list that
    are available (when asked for), whose battery level is known and not
    below the minimum (when one is given) and that lie within the radius,
    each paired with its distance from the centre. *)
Theorem find_nearby_scooters_exactly (lat lon r : Q) (only_available : bool)
    (min_battery_percentage : option Q)
    (scooters : list EScooter.Scooter) (sc : EScooter.Scooter) (d : Q) :
  In (sc, d)
    (EScooter.find_nearby_scooters lat lon scooters r only_available
       min_battery_percentage) <->
  In sc scooters /\
  (only_available = true -> EScooter.is_available sc = true) /\
  (forall m, min_battery_percentage = Some m ->
     exists b, EScooter.battery_level sc = Some b /\ m <= b) /\
  d = EScooter.calculate_distance lat lon (EScooter.latitude sc)
        (EScooter.longitude sc) /\
  d <= r.
Proof.
  unfold EScooter.find_nearby_scooters.
  rewrite scan_scooters_filter, In_sort_by, In_within. cbn [fst snd].
  rewrite andb_true_iff, !negb_true_iff, <- Qle_bool_iff.
  unfold Qleb.
  assert (Hb : match min_battery_percentage with
               | Some m => EScooter.battery_too_low sc m
               | None => false
               end = false <->
               (forall m, min_battery_percentage = Some m ->
                  exists b, EScooter.battery_level sc = Some b /\ m <= b)).
  { destruct min_battery_percentage as [m|].
    - rewrite battery_ok_iff. split.
      + intros Hm m' [= <-]. exact Hm.
      + intros Hm. now apply Hm.
    - split; [intros _ m; discriminate | reflexivity]. }
  rewrite Hb.
  destruct only_available, (EScooter.is_available sc);
    cbn [andb negb]; intuition congruence.
Qed.

(** X3: both searches return their candidates in ascending order of
    distance, and the result is a rearrangement of the candidates that pass:
    none is lost, none is duplicated. *)
Theorem nearby_sorted_by_distance (lat lon r : Q)
    (stations : list PubliBike.Station) (only_active only_with_bikes : bool)
    (scooters : list EScooter.Scooter) (only_available : bool)
    (min_battery_percentage : option Q) :
  ascending
    (PubliBike.find_nearby_stations lat lon stations r only_active
       only_with_bikes) /\
  Permutation
    (PubliBike.find_nearby_stations lat lon stations r only_active
       only_with_bikes)
    (PubliBike.scan_stations lat lon stations r only_active only_with_bikes)
  /\
  ascending
    (EScooter.find_nearby_scooters lat lon scooters r only_available
       min_battery_percentage) /\
  Permutation
    (EScooter.find_nearby_scooters lat lon scooters r only_available
       min_battery_percentage)
    (EScooter.scan_scooters lat lon scooters r only_available
       min_battery_percentage).
Proof.
  unfold ascending, PubliBike.find_nearby_stations,
    EScooter.find_nearby_scooters.
  repeat split; try apply sort_by_sorted; apply sort_by_perm.
Qed.
Lemma ascending_map {A : Type} (l : list (A * Q)) :
  ascending l <-> StronglySorted Qle (map snd l).
Proof.
  unfold ascending. induction l as [|a l IH]; simpl.
  - split; constructor.
  - split; intros Hs; inversion Hs as [|? ? Hl Ha]; subst; constructor;
      try (now apply IH).
    + rewrite Forall_forall in *. intros e He. apply in_map_iff in He.
      destruct He as [b [<- Hb]]. now apply Ha.
    + rewrite Forall_forall in *. intros b Hb. apply Ha.
      now apply in_map.
Qed.




(** Every entry of the return list stands for the nearby station at the same
    place in the list: its details, or the station itself when the detail
    request raised. *)
Lemma return_details_Forall2 (client : PubliBike.PubliBikeClient)
    (nearby : list (PubliBike.Station * Q)) :
  Forall2
    (fun found near =>
       snd found = snd near /\
       (PubliBike.get_station_details client (PubliBike.id (fst near))
        = Ok (fst found) \/
        (fst found = fst near /\
         exists e,
           PubliBike.get_station_details client (PubliBike.id (fst near))
           = Raise e)))
    (PubliBike.return_details client nearby) nearby.
Proof.
  induction nearby as [|[st d] rest IH]; cbn [PubliBike.return_details];
    [constructor|].
  destruct (PubliBike.get_station_details client (PubliBike.id st))
    as [detailed|e] eqn:E; constructor; try exact IH; cbn [fst snd];
    rewrite E; split; eauto.
Qed.

Lemma return_details_distances (client : PubliBike.PubliBikeClient)
    (nearby : list (PubliBike.Station * Q)) :
  map snd (PubliBike.return_details client nearby) = map snd nearby.
Proof.
  induction nearby as [|[st d] rest IH]; cbn [PubliBike.return_details];
    [reflexivity|].
  destruct (PubliBike.get_station_details client (PubliBike.id st));
    simpl; now rewrite IH.
Qed.



Lemma get_nearby_scooters_ascending (lat lon r : Q)
    (client : EScooter.VoiScooterClient) (mb : option Q)
    (found : list (EScooter.Scooter * Q)) :
  EScooter.get_nearby_scooters lat lon r client mb = Ok found ->
  ascending found.
Proof.
  unfold EScooter.get_nearby_scooters.
  destruct (EScooter.get_available_scooters_near_location client lat lon r);
    [|discriminate].
  intros [= <-]. apply sort_by_sorted.
Qed.

Lemma with_distance_all (lat lon : Q) (scooters : list EScooter.Scooter) :
  EScooter.with_distance lat lon scooters None
  = map (fun sc =>
           (sc, EScooter.calculate_distance lat lon (EScooter.latitude sc)
                  (EScooter.longitude sc))) scooters.
Proof.
  induction scooters as [|a l IH]; [reflexivity|].
  cbn [EScooter.with_distance map]. now rewrite IH.
Qed.


(** X5: the return-station lookup fails exactly when the overview request
    fails.  Otherwise it returns one entry for every active station within
    the radius, in ascending order of distance and with the same distances:
    the details of the station, or its overview data when the detail request
    raises.  Whether bikes or free docks are there is not looked at. *)
Theorem get_nearby_return_stations_outcome (lat lon r : Q)
    (client : PubliBike.PubliBikeClient) :
  match PubliBike.get_stations_overview client with
  | Raise e => PubliBike.get_nearby_return_stations lat lon r client = Raise e
  | Ok stations =>
      exists found,
        PubliBike.get_nearby_return_stations lat lon r client = Ok found /\
        ascending found /\
        Forall2
          (fun found near =>
             snd found = snd near /\
             (PubliBike.get_station_details client
                (PubliBike.id (fst near)) = Ok (fst found) \/
              (fst found = fst near /\
               exists e,
                 PubliBike.get_station_details client
                   (PubliBike.id (fst near)) = Raise e)))
          found
          (PubliBike.find_nearby_stations lat lon stations r true false)
  end.
Proof.
  destruct (PubliBike.get_stations_overview client) as [stations|e] eqn:E;
    unfold PubliBike.get_nearby_return_stations; rewrite E; [|reflexivity].
  eexists. split; [reflexivity|]. split.
  - apply ascending_map. rewrite return_details_distances.
    apply ascending_map, sort_by_sorted.
  - apply return_details_Forall2.
Qed.

(** X6: the scooter lookup fails exactly when the request fails.  Otherwise
    it returns every available scooter of the response, reserved and
    disabled ones left out, in ascending order of its distance from the
    centre; it does not compare the distance with the radius itself. *)
Theorem get_nearby_scooters_outcome (lat lon r : Q)
    (client : EScooter.VoiScooterClient) :
  match EScooter.get_scooters_near_location client lat lon r with
  | Raise e => EScooter.get_nearby_scooters lat lon r client None = Raise e
  | Ok all_scooters =>
      exists found,
        EScooter.get_nearby_scooters lat lon r client None = Ok found /\
        ascending found /\
        Permutation found
          (map (fun sc =>
                  (sc, EScooter.calculate_distance lat lon
                         (EScooter.latitude sc) (EScooter.longitude sc)))
             (filter EScooter.is_available all_scooters))
  end.
Proof.
  destruct (EScooter.get_scooters_near_location client lat lon r)
    as [all_scooters|e] eqn:E;
    unfold EScooter.get_nearby_scooters,
      EScooter.get_available_scooters_near_location; rewrite E;
    [|reflexivity].
  eexists. split; [reflexivity|]. split; [apply sort_by_sorted|].
  rewrite sort_by_perm, with_distance_all. reflexivity.
Qed.

End WithMath.

End SearchFacts.

(** ** The shape of the transfer-point list and of the segment list *)

Module StructureFacts.
Import Otp RouteSegmentation Spec PyFacts DetectorFacts SegmentFacts.

Lemma intermediate_points_stations (legs : list Leg) (k : nat) :
  Forall (fun p => is_station p = true) (intermediate_points k legs) /\
  (List.length (intermediate_points k legs) <= List.length legs - 1)%nat.
Proof.
  revert k; induction legs as [|l rest IH]; intros k;
    [split; [constructor | simpl; lia]|].
  destruct rest as [|n r]; [split; [constructor | simpl; lia]|].
  rewrite intermediate_points_cons2.
  destruct (IH (S k)) as [Hst Hlen]. split.
  - apply Forall_app. split; [|exact Hst].
    destruct (is_transfer l n); repeat constructor.
  - rewrite length_app.
    change (List.length (l :: n :: r)) with (S (List.length (n :: r))).
    destruct (is_transfer l n); cbn [List.length] in *; lia.
Qed.

(** X7: for an itinerary of n >= 1 legs the detector returns the origin,
    then between 0 and n-1 intermediate points, then the destination.  Every
    intermediate point is flagged as a station, the destination never is,
    and the origin is flagged exactly when the first leg is not a walking
    leg; the origin has no arrival time and the destination no departure
    time. *)
Theorem transfer_points_shape (it : Itinerary) (first : Leg)
    (rest : list Leg) :
  itin_legs it = Some (first :: rest) ->
  exists origin middle destination,
    extract_transfer_points it = origin :: middle ++ [destination] /\
    (List.length middle <= List.length rest)%nat /\
    Forall (fun p => is_station p = true) middle /\
    is_station destination = false /\
    (is_station origin = true <-> leg_mode first <> Some "WALK"%string) /\
    arrival_time origin = None /\
    departure_time destination = None.
Proof.
  intros E. rewrite (extract_transfer_points_cons it first rest E).
  destruct (intermediate_points_stations (first :: rest) 0) as [Hst Hlen].
  eexists _, _, _. split; [reflexivity|].
  split; [cbn [List.length] in Hlen; lia|]. split; [exact Hst|].
  split; [reflexivity|]. split; [|split; reflexivity].
  cbn [start_point is_station]. apply opt_eqb_neq.
Qed.

Lemma transfer_points_shape_witness :
  exists origin middle destination,
    extract_transfer_points Samples.walk_tram_walk
    = origin :: middle ++ [destination] /\
    (List.length middle <= 2)%nat /\
    is_station destination = false.
Proof.
  destruct (transfer_points_shape Samples.walk_tram_walk _ _ eq_refl)
    as [origin [middle [destination [Hout [Hlen [_ [Hdest _]]]]]]].
  exists origin, middle, destination. repeat split; assumption.
Defined.

Section WithMath.
Context `{FloatMath}.

(** X8: for an itinerary without legs (the key missing or the list empty)
    the analysis returns no transfer point and no segment, counts 0
    segments, and reports -2 transfers, whatever the clients are. *)
Theorem analysis_of_no_legs (it : Itinerary)
    (pb : option PubliBike.PubliBikeClient)
    (es : option EScooter.VoiScooterClient) (otp : option OTPClient) :
  get (itin_legs it) [] = [] ->
  analyze_route_with_alternatives it pb es otp
  = {| out_transfer_points := [];
       out_segments := [];
       total_segments := 0;
       total_transfers := (-2)%Z |}.
Proof.
  intros E. unfold analyze_route_with_alternatives.
  assert (Ht : extract_transfer_points it = []).
  { unfold extract_transfer_points. now rewrite E. }
  rewrite Ht. reflexivity.
Qed.

End WithMath.

Lemma analysis_of_no_legs_witness :
  total_transfers
    (analyze_route_with_alternatives (H := decimal_math)
       (Samples.itinerary []) (Some Samples.publibike_up)
       (Some Samples.escooter_up) None) = (-2)%Z.
Proof.
  now rewrite (analysis_of_no_legs (H := decimal_math) (Samples.itinerary [])
                 (Some Samples.publibike_up) (Some Samples.escooter_up) None
                 eq_refl).
Defined.


(** The k-th segment runs between the k-th and the next transfer point. *)
Lemma segments_loop_chain (tps : list TransferPoint) (legs rest : list Leg) :
  forall leg_idx start tidx segs,
    tidx = S (List.length segs) ->
    (forall k seg, nth_error segs k = Some seg ->
       segment_id seg = ("seg-" ++ str_int (Z.of_nat k + 1))%string /\
       nth_error tps k = Some (from_point seg) /\
       nth_error tps (S k) = Some (to_point seg)) ->
    forall k seg,
      nth_error (segments_loop tps legs rest leg_idx start tidx segs) k
      = Some seg ->
      segment_id seg = ("seg-" ++ str_int (Z.of_nat k + 1))%string /\
      nth_error tps k = Some (from_point seg) /\
      nth_error tps (S k) = Some (to_point seg).
Proof.
  induction rest as [|leg rest IH]; intros leg_idx start tidx segs Ht Hp;
    [exact Hp|].
  cbn [segments_loop].
  destruct (nth_error tps tidx) as [tp|] eqn:Hnth;
    [destruct (ends_at (to_info_of leg) tp)|]; try (now apply IH).
  apply IH; [rewrite length_app; simpl; lia|].
  intros k seg Hk.
  destruct (Nat.lt_ge_cases k (List.length segs)) as [Hlt|Hge].
  - rewrite nth_error_app1 in Hk by exact Hlt. now apply Hp.
  - rewrite nth_error_app2 in Hk by exact Hge.
    destruct (k - List.length segs)%nat as [|m] eqn:Ek;
      [|destruct m; discriminate].
    assert (k = List.length segs) by lia. subst k.
    injection Hk as <-. unfold make_segment.
    destruct (primary_of (slice legs start (leg_idx + 1))).
    cbn [segment_id from_point to_point]. subst tidx.
    replace (S (List.length segs) - 1)%nat with (List.length segs) by lia.
    split; [reflexivity|]. split; [|exact Hnth].
    apply nth_error_nth'.
    assert (Hlt : (S (List.length segs) < List.length tps)%nat)
      by (apply nth_error_Some; congruence).
    lia.
Qed.

(** X9: whatever list of transfer points the segment builder is given, its
    k-th segment (from 0) has the identifier seg-(k+1), starts at the k-th
    transfer point and ends at the next one; so each segment starts where
    the one before it ends, and there are fewer segments than transfer
    points. *)
Theorem segments_follow_transfer_points (it : Itinerary)
    (tps : list TransferPoint) (k : nat) (seg : RouteSegment) :
  nth_error (create_route_segments it tps) k = Some seg ->
  segment_id seg = ("seg-" ++ str_int (Z.of_nat k + 1))%string /\
  nth_error tps k = Some (from_point seg) /\
  nth_error tps (S k) = Some (to_point seg) /\
  (forall next, nth_error (create_route_segments it tps) (S k) = Some next ->
     from_point next = to_point seg).
Proof.
  unfold create_route_segments.
  destruct (List.length tps <? 2)%nat; [destruct k; discriminate|].
  intros Hk.
  assert (Hat : forall j s,
             nth_error (segments_loop tps (get (itin_legs it) [])
                          (get (itin_legs it) []) 0 0 1 []) j = Some s ->
             segment_id s = ("seg-" ++ str_int (Z.of_nat j + 1))%string /\
             nth_error tps j = Some (from_point s) /\
             nth_error tps (S j) = Some (to_point s)).
  { apply segments_loop_chain; [reflexivity|].
    intros j s Hj. destruct j; discriminate. }
  destruct (Hat k seg Hk) as [Hid [Hfrom Hto]].
  repeat split; try assumption.
  intros next Hn. destruct (Hat (S k) next Hn) as [_ [Hfrom' _]].
  congruence.
Qed.

Lemma segments_follow_transfer_points_witness :
  exists seg,
    nth_error (create_route_segments Samples.walk_tram_walk
                 (extract_transfer_points Samples.walk_tram_walk)) 1
    = Some seg /\
    segment_id seg = "seg-2"%string /\
    nth_error (extract_transfer_points Samples.walk_tram_walk) 1
    = Some (from_point seg) /\
    nth_error (extract_transfer_points Samples.walk_tram_walk) 2
    = Some (to_point seg).
Proof.
  assert (Hk : exists seg,
             nth_error (create_route_segments Samples.walk_tram_walk
                          (extract_transfer_points Samples.walk_tram_walk)) 1
             = Some seg).
  { vm_compute. eexists. reflexivity. }
  destruct Hk as [seg Hk]. exists seg. split; [exact Hk|].
  destruct (segments_follow_transfer_points _ _ _ _ Hk)
    as [Hid [Hfrom [Hto _]]].
  split; [exact Hid|]. split; [exact Hfrom | exact Hto].
Defined.

Lemma Forall_firstn {A : Type} (P : A -> Prop) (n : nat) (l : list A) :
  Forall P l -> Forall P (firstn n l).
Proof.
  revert l; induction n as [|n IH]; intros [|a l] Hl; simpl;
    try constructor; inversion Hl; subst; auto.
Qed.

Lemma Forall_skipn {A : Type} (P : A -> Prop) (n : nat) (l : list A) :
  Forall P l -> Forall P (skipn n l).
Proof.
  revert l; induction n as [|n IH]; intros [|a l] Hl; simpl; auto.
  inversion Hl; subst; auto.
Qed.

Lemma Forall_slice {A : Type} (P : A -> Prop) (lo hi : nat) (l : list A) :
  Forall P l -> Forall P (slice l lo hi).
Proof. intros Hl. now apply Forall_firstn, Forall_skipn. Qed.

(** A span of walking legs has the mode 'WALK' and no route. *)
Lemma primary_of_walk (ls : list Leg) :
  Forall (fun l => leg_mode l = Some "WALK"%string) ls ->
  primary_of ls = ("WALK"%string, None).
Proof.
  induction 1 as [|l ls Hl Hls IH]; [reflexivity|].
  cbn [primary_of]. rewrite Hl. simpl. exact IH.
Qed.

(** Otherwise the first leg that is not a walking leg decides. *)
Lemma primary_of_first (pre post : list Leg) (l : Leg) :
  Forall (fun l => leg_mode l = Some "WALK"%string) pre ->
  leg_mode l <> Some "WALK"%string ->
  primary_of (pre ++ l :: post)
  = (get (leg_mode l) "TRANSIT"%string,
     Some {| ri_route := leg_route l;
             ri_route_short_name := leg_routeShortName l;
             ri_route_long_name := leg_routeLongName l;
             ri_headsign := leg_headsign l |}) /\
  get (leg_mode l) "TRANSIT"%string <> "WALK"%string.
Proof.
  intros Hpre Hl. split.
  - induction Hpre as [|p pre Hp Hpre IH]; cbn [app primary_of].
    + apply opt_eqb_neq in Hl. now rewrite Hl.
    + rewrite Hp. simpl. exact IH.
  - destruct (leg_mode l) as [m|]; simpl; [congruence | discriminate].
Qed.

Lemma create_route_segments_spans (it : Itinerary)
    (tps : list TransferPoint) :
  Forall2 (aggregates_span (get (itin_legs it) [])) (leg_spans it tps)
    (create_route_segments it tps).
Proof.
  unfold leg_spans, create_route_segments.
  destruct (List.length tps <? 2)%nat; [constructor|].
  destruct (segments_loop_spans tps (get (itin_legs it) [])
              (get (itin_legs it) []) 0 0 1 []) as [new [-> Ha]].
  exact Ha.
Qed.

(** The mode and the route of each segment, read off its span. *)
Lemma primary_mode_of_spans (it : Itinerary) (tps : list TransferPoint) :
  Forall2
    (fun span seg =>
       let segment_legs :=
         slice (get (itin_legs it) []) (fst span) (snd span) in
       (Forall (fun l => leg_mode l = Some "WALK"%string) segment_legs ->
        mode seg = "WALK"%string /\ route_info seg = None) /\
       (forall pre l post,
          segment_legs = pre ++ l :: post ->
          Forall (fun l => leg_mode l = Some "WALK"%string) pre ->
          leg_mode l <> Some "WALK"%string ->
          mode seg = get (leg_mode l) "TRANSIT"%string /\
          mode seg <> "WALK"%string /\
          route_info seg
          = Some {| ri_route := leg_route l;
                    ri_route_short_name := leg_routeShortName l;
                    ri_route_long_name := leg_routeLongName l;
                    ri_headsign := leg_headsign l |}))
    (leg_spans it tps) (create_route_segments it tps).
Proof.
  eapply Forall2_impl; [|apply create_route_segments_spans].
  intros span seg [_ [_ Hp]]. cbv zeta. split.
  - intros Hw. rewrite (primary_of_walk _ Hw) in Hp.
    injection Hp as -> ->. split; reflexivity.
  - intros pre l post E Hpre Hl. rewrite E in Hp.
    destruct (primary_of_first pre post l Hpre Hl) as [Hq Hne].
    rewrite Hq in Hp. injection Hp as Hm Hr. rewrite Hm, Hr.
    repeat split. exact Hne.
Qed.

(** X10: the mode of a segment is 'WALK', with an empty route dictionary,
    when all legs of its span are walking legs; otherwise it is the mode of
    the first leg of the span that is not a walking leg ('TRANSIT' when that
    leg has no mode), which is never 'WALK', and the route dictionary holds
    the route fields of that leg. *)
Theorem segment_primary_mode (it : Itinerary) (tps : list TransferPoint) :
  Forall2
    (fun span seg =>
       let segment_legs :=
         slice (get (itin_legs it) []) (fst span) (snd span) in
       (Forall (fun l => leg_mode l = Some "WALK"%string) segment_legs ->
        mode seg = "WALK"%string /\ route_info seg = None) /\
       (forall pre l post,
          segment_legs = pre ++ l :: post ->
          Forall (fun l => leg_mode l = Some "WALK"%string) pre ->
          leg_mode l <> Some "WALK"%string ->
          mode seg = get (leg_mode l) "TRANSIT"%string /\
          mode seg <> "WALK"%string /\
          route_info seg
          = Some {| ri_route := leg_route l;
                    ri_route_short_name := leg_routeShortName l;
                    ri_route_long_name := leg_routeLongName l;
                    ri_headsign := leg_headsign l |}))
    (leg_spans it tps) (create_route_segments it tps).
Proof. exact (primary_mode_of_spans it tps). Qed.

Lemma pow10_pos (n : nat) : 0 < inject_Z (10 ^ Z.of_nat n).
Proof.
  unfold Qlt. simpl. rewrite Z.mul_1_r. apply Z.pow_pos_nonneg; lia.
Qed.
















End StructureFacts.

(** ** The augmentation of the segments *)

Module AugmentFacts.
Import Otp RouteSegmentation Spec Shape PyFacts DetectorFacts SegmentFacts
  StructureFacts AlternativeFacts.

Lemma create_route_segments_plain (it : Itinerary)
    (tps : list TransferPoint) :
  Forall (fun seg => alternatives_available seg = false /\
                     alternatives seg = [])
    (create_route_segments it tps).
Proof.
  unfold create_route_segments.
  destruct (List.length tps <? 2)%nat; [constructor|].
  apply segments_loop_plain. constructor.
Qed.

Section WithMath.
Context `{FloatMath}.

(** What one pass of the loop body does to a segment that carries no
    alternatives yet. *)
Lemma augment_segment_plain (tps : list TransferPoint)
    (pb : option PubliBike.PubliBikeClient)
    (es : option EScooter.VoiScooterClient) (otp : option OTPClient)
    (n i : nat) (seg : RouteSegment) :
  alternatives_available seg = false ->
  alternatives seg = [] ->
  let final_dest := last tps (to_point seg) in
  let found :=
    (if (i =? 0)%nat
     then find_alternative_modes_at_transfer (from_point seg) final_dest pb
            es otp 300
     else [])
    ++ (if (i <? n - 1)%nat
        then find_alternative_modes_at_transfer (to_point seg) final_dest pb
               es otp 300
        else []) in
  shows (view_segment (augment_segment tps pb es otp n i seg)) seg /\
  alternatives (augment_segment tps pb es otp n i seg) = found /\
  (alternatives_available (augment_segment tps pb es otp n i seg) = true <->
   found <> []).
Proof.
  intros Hav Hal final_dest found. unfold found, augment_segment.
  fold final_dest.
  destruct (i =? 0)%nat;
    [destruct (find_alternative_modes_at_transfer (from_point seg) final_dest
                 pb es otp 300) as [|a start]|];
    destruct (i <? n - 1)%nat;
    cbn [set_alternatives to_point alternatives alternatives_available andb
         app];
    try destruct (find_alternative_modes_at_transfer (to_point seg) final_dest
                    pb es otp 300) as [|b transfer];
    cbn [set_alternatives to_point alternatives alternatives_available andb
         app view_segment];
    rewrite ?Hav, ?Hal, ?app_nil_r;
    cbn [set_alternatives to_point alternatives alternatives_available andb
         app view_segment];
    (split; [repeat split|]); (split; [reflexivity|]);
    split; intros; congruence.
Qed.

Lemma augment_loop_nth (tps : list TransferPoint)
    (pb : option PubliBike.PubliBikeClient)
    (es : option EScooter.VoiScooterClient) (otp : option OTPClient)
    (n : nat) (segs : list RouteSegment) :
  forall i k,
    nth_error (augment_loop tps pb es otp n i segs) k
    = option_map (augment_segment tps pb es otp n (i + k))
        (nth_error segs k).
Proof.
  induction segs as [|seg rest IH]; intros i k.
  - destruct k; reflexivity.
  - destruct k as [|k]; cbn [augment_loop nth_error option_map].
    + now rewrite Nat.add_0_r.
    + rewrite IH. now replace (S i + k)%nat with (i + S k)%nat by lia.
Qed.

Lemma augment_loop_length (tps : list TransferPoint)
    (pb : option PubliBike.PubliBikeClient)
    (es : option EScooter.VoiScooterClient) (otp : option OTPClient)
    (n : nat) (segs : list RouteSegment) :
  forall i, List.length (augment_loop tps pb es otp n i segs)
            = List.length segs.
Proof.
  induction segs as [|seg rest IH]; intros i; simpl; [reflexivity|].
  now rewrite IH.
Qed.

(** The i-th segment of the response, from the i-th segment of the segment
    builder. *)
Lemma analysis_segment_at (it : Itinerary)
    (pb : option PubliBike.PubliBikeClient)
    (es : option EScooter.VoiScooterClient) (otp : option OTPClient)
    (i : nat) (seg : RouteSegment) :
  let tps := extract_transfer_points it in
  let segments := create_route_segments it tps in
  let out := analyze_route_with_alternatives it pb es otp in
  nth_error segments i = Some seg ->
  List.length (out_segments out) = List.length segments /\
  exists sv,
    nth_error (out_segments out) i = Some sv /\
    shows sv seg /\
    sv_alternatives sv
    = (if (i =? 0)%nat
       then find_alternative_modes_at_transfer (from_point seg)
              (last tps (to_point seg)) pb es otp 300
       else [])
      ++ (if (i <? List.length segments - 1)%nat
          then find_alternative_modes_at_transfer (to_point seg)
                 (last tps (to_point seg)) pb es otp 300
          else []) /\
    (sv_alternatives_available sv = true <-> sv_alternatives sv <> []).
Proof.
  intros tps segments out Hi.
  unfold out, analyze_route_with_alternatives. fold tps. fold segments.
  cbn [out_segments]. split; [now rewrite length_map, augment_loop_length|].
  exists (view_segment
            (augment_segment tps pb es otp (List.length segments) i seg)).
  split.
  - rewrite nth_error_map, augment_loop_nth, Hi. reflexivity.
  - pose proof (create_route_segments_plain it tps) as Hplain.
    rewrite Forall_forall in Hplain.
    destruct (Hplain seg (nth_error_In _ _ Hi)) as [Hav Hal].
    destruct (augment_segment_plain tps pb es otp (List.length segments) i
                seg Hav Hal) as [Hshow [Halts Hiff]].
    split; [exact Hshow|].
    cbn [view_segment sv_alternatives sv_alternatives_available].
    rewrite Halts. split; [reflexivity | exact Hiff].
Qed.

(** X13: the augmentation keeps every segment of the segment builder, in
    order and with its identifier, end points, mode, duration, distance and
    route unchanged, whatever the providers answer.  The alternatives of
    segment i are the ones found at its from-point, for the first segment
    only, followed by the ones found at its to-point, for every segment but
    the last; both searches go to the last transfer point with a radius of
    300 m.  [alternatives_available] is true exactly when that list is not
    empty. *)
Theorem alternatives_per_segment (it : Itinerary)
    (pb : option PubliBike.PubliBikeClient)
    (es : option EScooter.VoiScooterClient) (otp : option OTPClient)
    (i : nat) (seg : RouteSegment) :
  let tps := extract_transfer_points it in
  let segments := create_route_segments it tps in
  let out := analyze_route_with_alternatives it pb es otp in
  nth_error segments i = Some seg ->
  List.length (out_segments out) = List.length segments /\
  exists sv,
    nth_error (out_segments out) i = Some sv /\
    shows sv seg /\
    sv_alternatives sv
    = (if (i =? 0)%nat
       then find_alternative_modes_at_transfer (from_point seg)
              (last tps (to_point seg)) pb es otp 300
       else [])
      ++ (if (i <? List.length segments - 1)%nat
          then find_alternative_modes_at_transfer (to_point seg)
                 (last tps (to_point seg)) pb es otp 300
          else []) /\
    (sv_alternatives_available sv = true <-> sv_alternatives sv <> []).
Proof. exact (analysis_segment_at it pb es otp i seg). Qed.

(** Every segment of the response shows a segment of the segment builder,
    and is flagged exactly when it carries alternatives. *)
Lemma out_segments_all (it : Itinerary)
    (pb : option PubliBike.PubliBikeClient)
    (es : option EScooter.VoiScooterClient) (otp : option OTPClient)
    (sv : SegmentView) :
  In sv (out_segments (analyze_route_with_alternatives it pb es otp)) ->
  exists i seg,
    nth_error (create_route_segments it (extract_transfer_points it)) i
    = Some seg /\
    nth_error (out_segments (analyze_route_with_alternatives it pb es otp)) i
    = Some sv.
Proof.
  intros Hin. apply In_nth_error in Hin. destruct Hin as [i Hi].
  exists i. pose proof Hi as Hi'.
  unfold analyze_route_with_alternatives in Hi'. cbn [out_segments] in Hi'.
  rewrite nth_error_map, augment_loop_nth in Hi'.
  destruct (nth_error (create_route_segments it (extract_transfer_points it))
              i) as [seg|]; [|discriminate].
  exists seg. split; [reflexivity | exact Hi].
Qed.

(** X14: [has_alternatives], as [api_routes] computes it from the analysis,
    is true exactly when some segment of the response carries an
    alternative; without a bike-share and a scooter client it is false. *)
Theorem has_alternatives_iff (it : Itinerary)
    (pb : option PubliBike.PubliBikeClient)
    (es : option EScooter.VoiScooterClient) (otp : option OTPClient) :
  let out := analyze_route_with_alternatives it pb es otp in
  (App.has_alternatives out = true <->
   exists sv, In sv (out_segments out) /\ sv_alternatives sv <> []) /\
  (pb = None -> es = None -> App.has_alternatives out = false).
Proof.
  intros out.
  assert (Hflag : forall sv, In sv (out_segments out) ->
            (sv_alternatives_available sv = true <->
             sv_alternatives sv <> []) /\
            (pb = None -> es = None -> sv_alternatives sv = [])).
  { intros sv Hin. destruct (out_segments_all it pb es otp sv Hin)
      as [i [seg [Hseg Hsv]]].
    destruct (analysis_segment_at it pb es otp i seg Hseg)
      as [_ [sv' [Hsv' [_ [Halts Hiff]]]]].
    fold out in Hsv'. unfold out in Hsv'. rewrite Hsv in Hsv'.
    injection Hsv' as <-. split; [exact Hiff|].
    intros -> ->. rewrite Halts.
    destruct (i =? 0)%nat; destruct (_ <? _)%nat; reflexivity. }
  unfold App.has_alternatives. split.
  - rewrite existsb_exists. split; intros [sv [Hin Hsv]]; exists sv;
      (split; [exact Hin|]); now apply (Hflag sv Hin).
  - intros Hpb Hes. apply not_true_iff_false. rewrite existsb_exists.
    intros [sv [Hin Hsv]]. destruct (Hflag sv Hin) as [Hiff Hnone].
    apply Hiff in Hsv. apply Hsv. now apply Hnone.
Qed.

(** X15: a route that [is_walk_only_route] rejects after parsing (no leg, or
    walking legs only) has only segments of mode 'WALK' with an empty route
    dictionary in its analysis, whatever the providers answer. *)
Theorem walk_only_route_segments (it : Itinerary)
    (pb : option PubliBike.PubliBikeClient)
    (es : option EScooter.VoiScooterClient) (otp : option OTPClient) :
  App.is_walk_only_route (Some (parse_otp_itinerary it)) = true ->
  Forall (fun sv => sv_mode sv = "WALK"%string /\ sv_route_info sv = None)
    (out_segments (analyze_route_with_alternatives it pb es otp)).
Proof.
  intros Hwalk.
  assert (Hlegs : Forall (fun l => leg_mode l = Some "WALK"%string)
                    (get (itin_legs it) [])).
  { unfold App.is_walk_only_route in Hwalk.
    cbn [parse_otp_itinerary legs] in Hwalk.
    destruct (get (itin_legs it) []) as [|l ls]; [constructor|].
    cbn [map] in Hwalk. rewrite <- (map_cons parse_leg l ls) in Hwalk.
    rewrite forallb_forall in Hwalk. apply Forall_forall. intros x Hx.
    apply opt_eqb_eq. apply (Hwalk (parse_leg x)). now apply in_map. }
  apply Forall_forall. intros sv Hin.
  destruct (out_segments_all it pb es otp sv Hin) as [i [seg [Hseg Hsv]]].
  destruct (analysis_segment_at it pb es otp i seg Hseg)
    as [_ [sv' [Hsv' [Hshow _]]]].
  rewrite Hsv in Hsv'. injection Hsv' as <-.
  destruct Hshow as [_ [_ [_ [Hmode [_ [_ Hroute]]]]]].
  rewrite Hmode, Hroute.
  pose proof (primary_mode_of_spans it (extract_transfer_points it)) as Hall.
  pose proof (create_route_segments_spans it (extract_transfer_points it))
    as Hspans.
  apply Forall2_length in Hspans.
  assert (Hspan : exists span,
             nth_error (leg_spans it (extract_transfer_points it)) i
             = Some span).
  { destruct (nth_error (leg_spans it (extract_transfer_points it)) i)
      eqn:E; [eauto|].
    apply nth_error_None in E.
    assert (Hlt : (i < List.length
                         (create_route_segments it
                            (extract_transfer_points it)))%nat)
      by (apply nth_error_Some; congruence).
    lia. }
  destruct Hspan as [span Hspan].
  assert (Hrel : forall (R : nat * nat -> RouteSegment -> Prop) l1 l2,
             Forall2 R l1 l2 -> forall j a b,
               nth_error l1 j = Some a -> nth_error l2 j = Some b -> R a b).
  { intros R l1 l2 HF. induction HF; intros [|j] a b Ha Hb;
      try discriminate; simpl in *; [congruence | eauto]. }
  destruct (Hrel _ _ _ Hall i span seg Hspan Hseg) as [Hw _].
  apply Hw. now apply Forall_slice.
Qed.
End WithMath.

End AugmentFacts.

(** ** The estimates of the alternatives *)

Module EstimateFacts.
Import Otp RouteSegmentation Shape PyFacts ProviderFacts SearchFacts
  StructureFacts AlternativeFacts.

Lemma round_half_even_ge_floor (y : Q) :
  (Qfloor y <= round_half_even y)%Z.
Proof.
  unfold round_half_even.
  destruct (Qltb _ (1 # 2)); [lia|].
  destruct (Qltb (1 # 2) _); [lia|].
  destruct (Z.even (Qfloor y)); lia.
Qed.

(** [round(x, n)] is not below a number of n decimals that [x] is not
    below. *)
Lemma round_lower (k : Z) (x : Q) (n : nat) :
  inject_Z k <= x * inject_Z (10 ^ Z.of_nat n) ->
  inject_Z k / inject_Z (10 ^ Z.of_nat n) <= round x n.
Proof.
  intros Hk. pose proof (pow10_pos n) as Hs. unfold round.
  set (s := inject_Z (10 ^ Z.of_nat n)) in *.
  assert (Hz : (k <= round_half_even (x * s))%Z).
  { apply Z.le_trans with (Qfloor (x * s));
      [|apply round_half_even_ge_floor].
    rewrite <- (Qfloor_Z k). now apply Qfloor_resp_le. }
  unfold Qdiv. apply Qmult_le_compat_r.
  - rewrite <- Zle_Qle. exact Hz.
  - apply Qlt_le_weak, Qinv_lt_0_compat, Hs.
Qed.

Lemma max_ge_left (a b : Q) : a <= max a b.
Proof.
  unfold max. destruct (Qltb a b) eqn:E; [|apply Qle_refl].
  now apply Qltb_true_le.
Qed.

Section WithMath.
Context `{FloatMath}.

(** X16: the two providers are looked up independently: the result is what
    the bike-share client alone gives, followed by what the scooter client
    alone gives.  Each gives at most one alternative, of type 'bike_share'
    with a cost of 4.0, respectively of type 'scooter_share'; without a
    client nothing is found. *)
Theorem alternatives_by_provider (tp dest : TransferPoint)
    (pb : option PubliBike.PubliBikeClient)
    (es : option EScooter.VoiScooterClient) (otp : option OTPClient)
    (r : Q) :
  find_alternative_modes_at_transfer tp dest pb es otp r
  = find_alternative_modes_at_transfer tp dest pb None otp r
    ++ find_alternative_modes_at_transfer tp dest None es otp r /\
  (List.length (find_alternative_modes_at_transfer tp dest pb None otp r)
   <= 1)%nat /\
  Forall (fun alt => alt_type alt = "bike_share"%string /\
                     alt_mode alt = "publibike"%string /\
                     alt_est_cost_chf alt = 4)
    (find_alternative_modes_at_transfer tp dest pb None otp r) /\
  (List.length (find_alternative_modes_at_transfer tp dest None es otp r)
   <= 1)%nat /\
  Forall (fun alt => alt_type alt = "scooter_share"%string)
    (find_alternative_modes_at_transfer tp dest None es otp r) /\
  find_alternative_modes_at_transfer tp dest None None otp r = [].
Proof.
  rewrite !find_alternative_eq. cbn [publibike_alternatives
    escooter_alternatives app]. rewrite app_nil_r.
  split; [reflexivity|].
  assert (Hb : (List.length (publibike_alternatives tp dest pb otp r)
                <= 1)%nat /\
               Forall (fun alt => alt_type alt = "bike_share"%string /\
                                  alt_mode alt = "publibike"%string /\
                                  alt_est_cost_chf alt = 4)
                 (publibike_alternatives tp dest pb otp r)).
  { destruct (publibike_alternatives_cases tp dest pb otp r)
      as [-> | [pc [st [d [rest [st' [d' [rest' [_ [_ [_ ->]]]]]]]]]]].
    - split; [simpl; lia | constructor].
    - split; [simpl; lia|]. constructor; [|constructor].
      unfold bike_alternative.
      destruct (bike_route_estimate otp st st' d d'). repeat split. }
  destruct Hb as [Hb1 Hb2]. split; [exact Hb1|]. split; [exact Hb2|].
  split; [|split; [|reflexivity]].
  - unfold escooter_alternatives. destruct es as [ec|]; [|simpl; lia].
    destruct (EScooter.get_nearby_scooters _ _ _ _ _) as [[|[sc w] l]|e];
      simpl; lia.
  - apply Forall_forall. intros alt.
    apply escooter_alternatives_type.
Qed.

(** X17: when an available scooter is found and there is no routed
    itinerary for it (no routing client, the request raises, or the answer
    holds no itinerary), the scooter alternative is still produced, with a
    duration of 10 minutes, no distance and a cost of 5.0. *)
Theorem scooter_fallback_estimate (tp dest : TransferPoint)
    (pb : option PubliBike.PubliBikeClient)
    (ec : EScooter.VoiScooterClient) (otp : option OTPClient) (r : Q)
    (sc : EScooter.Scooter) (w : Q) (rest : list (EScooter.Scooter * Q)) :
  EScooter.get_nearby_scooters (latitude tp) (longitude tp) r ec None
  = Ok ((sc, w) :: rest) ->
  (forall oc resp,
     otp = Some oc ->
     plan oc (EScooter.latitude sc) (EScooter.longitude sc) (latitude dest)
       (longitude dest) "WALK" 10000 1 = Ok resp ->
     response_itineraries resp = []) ->
  exists alt,
    find_alternative_modes_at_transfer tp dest pb (Some ec) otp r
    = publibike_alternatives tp dest pb otp r ++ [alt] /\
    alt_type alt = "scooter_share"%string /\
    alt_duration_min alt = Some 10 /\
    alt_distance_km alt = None /\
    alt_est_cost_chf alt = 5.
Proof.
  intros Es Hotp. exists (scooter_alternative otp sc w dest).
  rewrite find_alternative_eq. unfold escooter_alternatives. rewrite Es.
  split; [reflexivity|].
  assert (He : scooter_route_estimate otp sc w dest = (Some 10, None, 5)).
  { unfold scooter_route_estimate. destruct otp as [oc|]; [|reflexivity].
    destruct (plan oc _ _ _ _ _ _ _) as [resp|e] eqn:Ep; [|reflexivity].
    now rewrite (Hotp oc resp eq_refl Ep). }
  unfold scooter_alternative. rewrite He.
  destruct (EScooter.get_battery_percentage sc); repeat split.
Qed.


(** X19: a routed scooter alternative never counts less than 3 minutes of
    riding: its cost is at least 1.87, and its duration at least 3 minutes
    when the distance to the scooter is not negative. *)
Theorem scooter_estimate_bounds (tp dest : TransferPoint)
    (pb : option PubliBike.PubliBikeClient)
    (ec : EScooter.VoiScooterClient) (oc : OTPClient) (r : Q)
    (sc : EScooter.Scooter) (w : Q)
    (rest : list (EScooter.Scooter * Q)) (resp : Response)
    (itinerary : Itinerary) (others : list Itinerary) :
  EScooter.get_nearby_scooters (latitude tp) (longitude tp) r ec None
  = Ok ((sc, w) :: rest) ->
  plan oc (EScooter.latitude sc) (EScooter.longitude sc) (latitude dest)
    (longitude dest) "WALK" 10000 1 = Ok resp ->
  response_itineraries resp = itinerary :: others ->
  exists alt dur,
    find_alternative_modes_at_transfer tp dest pb (Some ec) (Some oc) r
    = publibike_alternatives tp dest pb (Some oc) r ++ [alt] /\
    alt_duration_min alt = Some dur /\
    (0 <= w -> 3 <= dur) /\
    187 # 100 <= alt_est_cost_chf alt.
Proof.
  intros Es Ep Ei.
  set (ride := max 3 (round (Otp.duration_min (parse_otp_itinerary itinerary)
                             / 3) 1)).
  exists (scooter_alternative (Some oc) sc w dest),
    (ride + round (w / 80) 1).
  rewrite find_alternative_eq. unfold escooter_alternatives. rewrite Es.
  split; [reflexivity|].
  destruct (scooter_alternative_fields (Some oc) sc w dest)
    as [_ [Hdur [Hcost _]]].
  unfold scooter_route_estimate in Hdur, Hcost.
  rewrite Ep, Ei in Hdur, Hcost. cbn [fst snd] in Hdur, Hcost.
  fold ride in Hdur, Hcost.
  pose proof (max_ge_left 3 (round (Otp.duration_min
                                      (parse_otp_itinerary itinerary) / 3) 1))
    as Hride. fold ride in Hride.
  split; [exact Hdur|]. split.
  - intros Hw.
    assert (Hwalk : 0 <= round (w / 80) 1).
    { apply Qle_trans with (inject_Z 0 / inject_Z (10 ^ Z.of_nat 1));
        [apply Qle_lteq; right; reflexivity|].
      apply (round_lower 0 (w / 80) 1).
      change (inject_Z (10 ^ Z.of_nat 1)) with 10.
      unfold Qdiv. change (/ 80) with (1 # 80). change (inject_Z 0) with 0.
      lra. }
    lra.
  - rewrite Hcost.
    apply Qle_trans with (inject_Z 187 / inject_Z (10 ^ Z.of_nat 2));
      [apply Qle_lteq; right; reflexivity|].
    apply round_lower. change (inject_Z (10 ^ Z.of_nat 2)) with 100.
    change (inject_Z 187) with 187. lra.
Qed.

End WithMath.

End EstimateFacts.

(** ** The provider clients: reading a response, formatting for the front end *)

Module ClientFacts.
Import Shape ProviderFacts SearchFacts.

Section Parse.
Context {Feature : Type}
  (from_api_response : Feature -> result EScooter.Scooter).

Lemma readable_cons_ok (f : Feature) (rest : list Feature)
    (sc : EScooter.Scooter) :
  from_api_response f = Ok sc ->
  readable_voi_scooters from_api_response (f :: rest)
  = (if String.eqb (EScooter.provider_id sc) EScooter.VOI_PROVIDER_ID
     then [sc] else [])
    ++ readable_voi_scooters from_api_response rest.
Proof.
  intros E. unfold readable_voi_scooters. cbn [flat_map]. rewrite E.
  cbn [app filter].
  now destruct (String.eqb (EScooter.provider_id sc)
                  EScooter.VOI_PROVIDER_ID).
Qed.

Lemma readable_cons_raise (f : Feature) (rest : list Feature) (e : string) :
  from_api_response f = Raise e ->
  readable_voi_scooters from_api_response (f :: rest)
  = readable_voi_scooters from_api_response rest.
Proof.
  intros E. unfold readable_voi_scooters. cbn [flat_map]. now rewrite E.
Qed.

(** Without a limit that can be reached the loop collects everything. *)
Lemma collect_unlimited (limit : option Z) (results : list Feature) :
  (forall n, EScooter.limit_reached limit n = false) ->
  forall acc,
    EScooter.collect_scooters from_api_response results limit acc
    = acc ++ readable_voi_scooters from_api_response results.
Proof.
  intros Hl. induction results as [|f rest IH]; intros acc.
  - simpl. now rewrite app_nil_r.
  - cbn [EScooter.collect_scooters].
    destruct (from_api_response f) as [sc|e] eqn:E.
    + rewrite (readable_cons_ok f rest sc E).
      destruct (String.eqb _ _); [|apply IH].
      rewrite Hl, IH, <- app_assoc. reflexivity.
    + rewrite (readable_cons_raise f rest e E). apply IH.
Qed.

(** With a positive limit the loop stops at the limit. *)
Lemma collect_limited (l : Z) (results : list Feature) :
  (0 < l)%Z ->
  forall acc,
    (Z.of_nat (List.length acc) < l)%Z ->
    EScooter.collect_scooters from_api_response results (Some l) acc
    = acc ++ firstn (Z.to_nat l - List.length acc)
               (readable_voi_scooters from_api_response results).
Proof.
  intros Hl. induction results as [|f rest IH]; intros acc Hacc.
  - simpl. now rewrite firstn_nil, app_nil_r.
  - cbn [EScooter.collect_scooters].
    destruct (from_api_response f) as [sc|e] eqn:E.
    + rewrite (readable_cons_ok f rest sc E).
      destruct (String.eqb _ _); [|now apply IH].
      unfold EScooter.limit_reached. rewrite length_app. cbn [List.length].
      replace (l =? 0)%Z with false by (symmetry; apply Z.eqb_neq; lia).
      cbn [negb andb app].
      destruct (Z.to_nat l - List.length acc)%nat as [|k] eqn:Ek; [lia|].
      cbn [firstn].
      destruct (l <=? Z.of_nat (List.length acc + 1))%Z eqn:Hr.
      * apply Z.leb_le in Hr. replace k with 0%nat by lia. reflexivity.
      * apply Z.leb_gt in Hr. rewrite IH.
        -- rewrite length_app. cbn [List.length]. rewrite <- app_assoc.
           replace (Z.to_nat l - (List.length acc + 1))%nat with k by lia.
           reflexivity.
        -- rewrite length_app. cbn [List.length]. lia.
    + rewrite (readable_cons_raise f rest e E). now apply IH.
Qed.

(** With a negative limit the loop stops at the first scooter it keeps. *)
Lemma collect_negative (l : Z) (results : list Feature) :
  (l < 0)%Z ->
  forall acc,
    EScooter.collect_scooters from_api_response results (Some l) acc
    = acc ++ firstn 1 (readable_voi_scooters from_api_response results).
Proof.
  intros Hl. induction results as [|f rest IH]; intros acc.
  - simpl. now rewrite app_nil_r.
  - cbn [EScooter.collect_scooters].
    destruct (from_api_response f) as [sc|e] eqn:E.
    + rewrite (readable_cons_ok f rest sc E).
      destruct (String.eqb _ _); [|now apply IH].
      unfold EScooter.limit_reached.
      replace (l =? 0)%Z with false by (symmetry; apply Z.eqb_neq; lia).
      replace (l <=? Z.of_nat (List.length (acc ++ [sc])))%Z with true
        by (symmetry; apply Z.leb_le; lia).
      reflexivity.
    + rewrite (readable_cons_raise f rest e E). now apply IH.
Qed.

(** X21: after the request, [get_scooters_near_location] fails exactly when
    the request failed.  Otherwise it returns the scooters of the provider
    'voiscooters.com' among the features it can read, in the order of the
    response; a feature that cannot be read is skipped.  A positive limit
    cuts the list to its first [limit] scooters; no limit and the limit 0
    return all of them; a negative limit returns at most one. *)
Theorem scooters_of_response_outcome (response : result (list Feature))
    (limit : option Z) :
  match response with
  | Raise e =>
      EScooter.scooters_of_response from_api_response response limit
      = Raise e
  | Ok results =>
      let all := readable_voi_scooters from_api_response results in
      EScooter.scooters_of_response from_api_response response limit
      = Ok (match limit with
            | None => all
            | Some l =>
                if (l =? 0)%Z then all
                else if (l <? 0)%Z then firstn 1 all
                else firstn (Z.to_nat l) all
            end) /\
      Forall (fun sc => EScooter.provider_id sc = "voiscooters.com"%string)
        all
  end.
Proof.
  destruct response as [results|e]; [|reflexivity].
  cbv zeta. unfold EScooter.scooters_of_response. split.
  - f_equal. destruct limit as [l|].
    + destruct (l =? 0)%Z eqn:E0.
      * apply Z.eqb_eq in E0. subst l.
        now rewrite (collect_unlimited (Some 0%Z) results).
      * apply Z.eqb_neq in E0. destruct (l <? 0)%Z eqn:En.
        -- apply Z.ltb_lt in En. now rewrite collect_negative.
        -- apply Z.ltb_ge in En. rewrite collect_limited; [|lia|simpl; lia].
           cbn [List.length app]. now rewrite Nat.sub_0_r.
    + now rewrite (collect_unlimited None results).
  - apply Forall_forall. intros sc Hin. unfold readable_voi_scooters in Hin.
    apply filter_In in Hin. destruct Hin as [_ Hp].
    now apply String.eqb_eq in Hp.
Qed.
End Parse.

Lemma all_details_Forall2 (client : PubliBike.PubliBikeClient)
    (overview : list PubliBike.Station) :
  Forall2
    (fun got station =>
       PubliBike.get_station_details client (PubliBike.id station) = Ok got
       \/ (got = station /\
           exists e,
             PubliBike.get_station_details client (PubliBike.id station)
             = Raise e))
    (PubliBike.all_details client overview) overview.
Proof.
  induction overview as [|st rest IH]; cbn [PubliBike.all_details];
    [constructor|].
  destruct (PubliBike.get_station_details client (PubliBike.id st))
    as [detailed|e] eqn:E; constructor; try exact IH; rewrite E; eauto.
Qed.

(** X22: [get_all_stations_with_details] fails exactly when the overview
    request fails.  Otherwise it returns one station for every station of
    the overview, in the same order: its details, or the overview station
    itself when its detail request raises. *)
Theorem get_all_stations_with_details_outcome
    (client : PubliBike.PubliBikeClient) :
  match PubliBike.get_stations_overview client with
  | Raise e => PubliBike.get_all_stations_with_details client = Raise e
  | Ok overview =>
      exists all,
        PubliBike.get_all_stations_with_details client = Ok all /\
        List.length all = List.length overview /\
        Forall2
          (fun got station =>
             PubliBike.get_station_details client (PubliBike.id station)
             = Ok got
             \/ (got = station /\
                 exists e,
                   PubliBike.get_station_details client
                     (PubliBike.id station) = Raise e))
          all overview
  end.
Proof.
  unfold PubliBike.get_all_stations_with_details.
  destruct (PubliBike.get_stations_overview client) as [overview|e];
    [|reflexivity].
  eexists. split; [reflexivity|].
  pose proof (all_details_Forall2 client overview) as Hall.
  split; [exact (Forall2_length Hall) | exact Hall].
Qed.

Section WithMath.
Context `{FloatMath}.

(** X23: [get_scooters_near_start] never raises: when the lookup fails it
    returns the empty list.  Otherwise it returns one entry for every
    available scooter the lookup found, nearest first, with the distance
    rounded to one decimal and [is_available] true; the battery percentage
    is null when the level is unknown and also when it is 0, and the level
    rounded to one decimal otherwise. *)
Theorem get_scooters_near_start_outcome (client : EScooter.VoiScooterClient)
    (start_lat start_lon radius_m : Q) :
  match EScooter.get_nearby_scooters start_lat start_lon radius_m client None
  with
  | Raise _ =>
      EScooter.get_scooters_near_start client start_lat start_lon radius_m
      = []
  | Ok found =>
      ascending found /\
      Forall2
        (fun entry near =>
           EScooter.se_id entry = EScooter.vehicle_id (fst near) /\
           EScooter.se_distance_m entry = round (snd near) 1 /\
           EScooter.se_is_available entry = true /\
           (EScooter.se_battery_percentage entry = None <->
            EScooter.battery_level (fst near) = None \/
            exists b, EScooter.battery_level (fst near) = Some b /\ b == 0)
           /\
           (forall b, EScooter.battery_level (fst near) = Some b ->
              ~ b == 0 ->
              EScooter.se_battery_percentage entry = Some (round b 1)))
        (EScooter.get_scooters_near_start client start_lat start_lon
           radius_m) found
  end.
Proof.
  unfold EScooter.get_scooters_near_start.
  destruct (EScooter.get_nearby_scooters start_lat start_lon radius_m client
              None) as [found|e] eqn:E; [|reflexivity].
  split; [now apply (get_nearby_scooters_ascending _ _ _ _ _ _ E)|].
  assert (Hav : forall sc d, In (sc, d) found ->
            EScooter.is_available sc = true).
  { intros sc d Hin.
    now apply (get_nearby_scooters_ok _ _ _ _ _ _ sc d E). }
  clear E. induction found as [|[sc d] rest IH]; [constructor|].
  cbn [map]. constructor.
  - cbn [EScooter.scooter_entry fst snd EScooter.se_id
         EScooter.se_distance_m EScooter.se_is_available
         EScooter.se_battery_percentage].
    split; [reflexivity|]. split; [reflexivity|].
    split; [apply (Hav sc d); now left|].
    unfold EScooter.get_battery_percentage, truthy.
    destruct (EScooter.battery_level sc) as [b|].
    + destruct (Qeq_bool b 0) eqn:Eb; cbn [negb].
      * apply Qeq_bool_iff in Eb. split.
        -- split; [intros _; right; exists b; now split | reflexivity].
        -- intros b' [= <-] Hne. contradiction.
      * split.
        -- split; [discriminate|].
           intros [Hn | [b' [[= <-] Hz]]]; [discriminate|].
           apply Qeq_bool_iff in Hz. congruence.
        -- intros b' [= <-] _. reflexivity.
    + split; [split; auto | intros b Hb; discriminate].
  - apply IH. intros sc' d' Hin. apply (Hav sc' d'). now right.
Qed.
End WithMath.

End ClientFacts.

(** ** Counts of the analysis, and the payload of a bike-share alternative *)

Module CountFacts.
Import Otp RouteSegmentation Shape PyFacts DetectorFacts SegmentFacts
  ProviderFacts AlternativeFacts AugmentFacts.

Lemma intermediate_points_count (legs : list Leg) (k : nat) :
  List.length (intermediate_points k legs) = transfer_count legs.
Proof.
  unfold transfer_count.
  revert k; induction legs as [|l rest IH]; intros k; [reflexivity|].
  destruct rest as [|n r]; [reflexivity|].
  rewrite intermediate_points_cons2, length_app, (IH (S k)).
  cbn [tl combine filter fst snd].
  destruct (is_transfer l n); reflexivity.
Qed.

Section WithMath.
Context `{FloatMath}.

(** X24: for an itinerary with at least one leg, [total_transfers] is the
    number of adjacent leg pairs at which the mode changes, the route
    changes or the first leg ends at a station name; there is one segment
    more than that and two transfer points more than that, whatever the
    providers answer. *)
Theorem analysis_counts (it : Itinerary)
    (pb : option PubliBike.PubliBikeClient)
    (es : option EScooter.VoiScooterClient) (otp : option OTPClient)
    (first : Leg) (rest : list Leg) :
  itin_legs it = Some (first :: rest) ->
  let out := analyze_route_with_alternatives it pb es otp in
  total_transfers out = Z.of_nat (transfer_count (first :: rest)) /\
  total_segments out = S (transfer_count (first :: rest)) /\
  List.length (out_segments out) = total_segments out /\
  List.length (out_transfer_points out)
  = S (S (transfer_count (first :: rest))).
Proof.
  intros E out.
  assert (Ht : List.length (extract_transfer_points it)
               = S (S (transfer_count (first :: rest)))).
  { rewrite (extract_transfer_points_cons it first rest E).
    cbn [List.length]. rewrite length_app, intermediate_points_count.
    simpl. lia. }
  pose proof (create_route_segments_length it first rest E) as Hs.
  unfold out, analyze_route_with_alternatives.
  cbn [total_transfers total_segments out_segments out_transfer_points].
  rewrite !length_map, !augment_loop_length, Hs, Ht.
  repeat split; lia.
Qed.

(** X25: every bike-share alternative reports a start station with at
    least one bike and with no more e-bikes than bikes, and costs 4.0. *)
Theorem bike_payload_counts (tp dest : TransferPoint)
    (pb : option PubliBike.PubliBikeClient)
    (es : option EScooter.VoiScooterClient) (otp : option OTPClient)
    (r : Q) (alt : Alternative) :
  In alt (find_alternative_modes_at_transfer tp dest pb es otp r) ->
  alt_type alt = "bike_share"%string ->
  exists start_station dest_station,
    alt_payload alt = BikePayload start_station dest_station /\
    (1 <= ss_bikes_available start_station)%nat /\
    (ss_ebikes_available start_station
     <= ss_bikes_available start_station)%nat /\
    alt_est_cost_chf alt = 4.
Proof.
  rewrite find_alternative_eq. intros Hin Hty. apply in_app_or in Hin.
  destruct Hin as [Hin | Hin];
    [|apply escooter_alternatives_type in Hin; rewrite Hin in Hty;
      discriminate].
  destruct (publibike_alternatives_cases tp dest pb otp r)
    as [E | [pc [st [d [rest [st' [d' [rest' [_ [Eb [_ E]]]]]]]]]]];
    rewrite E in Hin; [contradiction|].
  destruct Hin as [<- | []].
  destruct (get_nearby_bikes_ok _ _ _ _ _ st d Eb (or_introl eq_refl))
    as [Hb _].
  unfold PubliBike.has_bikes_available in Hb. apply Nat.ltb_lt in Hb.
  unfold bike_alternative. destruct (bike_route_estimate otp st st' d d').
  cbn [alt_payload alt_est_cost_chf]. eexists _, _.
  split; [reflexivity|].
  cbn [ss_bikes_available ss_ebikes_available].
  unfold PubliBike.available_bikes_count, PubliBike.available_ebikes_count.
  split; [lia|]. split; [apply filter_length_le | reflexivity].
Qed.
End WithMath.

Lemma analysis_counts_witness :
  total_transfers
    (analyze_route_with_alternatives (H := decimal_math)
       Samples.walk_tram_walk (Some Samples.publibike_up)
       (Some Samples.escooter_up) None) = 2%Z.
Proof.
  destruct (analysis_counts (H := decimal_math) Samples.walk_tram_walk
              (Some Samples.publibike_up) (Some Samples.escooter_up) None _ _
              eq_refl) as [Ht _].
  rewrite Ht. reflexivity.
Defined.

Lemma bike_payload_counts_witness :
  exists alt start_station dest_station,
    In alt (find_alternative_modes_at_transfer (H := decimal_math)
              (Samples.point Samples.stop_b) (Samples.point Samples.office)
              (Some Samples.publibike_up) None None 300) /\
    alt_payload alt = BikePayload start_station dest_station /\
    (1 <= ss_bikes_available start_station)%nat.
Proof.
  assert (Hf : exists alt others,
             find_alternative_modes_at_transfer (H := decimal_math)
               (Samples.point Samples.stop_b) (Samples.point Samples.office)
               (Some Samples.publibike_up) None None 300 = alt :: others /\
             alt_type alt = "bike_share"%string).
  { vm_compute. eexists _, _. split; reflexivity. }
  destruct Hf as [alt [others [Hf Hty]]].
  assert (Hin : In alt
                  (find_alternative_modes_at_transfer (H := decimal_math)
                     (Samples.point Samples.stop_b)
                     (Samples.point Samples.office)
                     (Some Samples.publibike_up) None None 300))
    by (rewrite Hf; now left).
  destruct (bike_payload_counts (H := decimal_math) _ _ _ _ _ _ alt Hin Hty)
    as [start_station [dest_station [Hpay [Hone _]]]].
  exists alt, start_station, dest_station.
  split; [exact Hin|]. split; [exact Hpay | exact Hone].
Defined.

End CountFacts.

(** ** The properties with preconditions, on the sample data *)

Module SampleRuns.
Import Otp RouteSegmentation Shape AlternativeFacts AugmentFacts
  EstimateFacts.

Lemma alternatives_per_segment_witness :
  exists seg sv,
    nth_error (create_route_segments Samples.walk_tram_walk
                 (extract_transfer_points Samples.walk_tram_walk)) 1
    = Some seg /\
    nth_error
      (out_segments
         (analyze_route_with_alternatives (H := decimal_math)
            Samples.walk_tram_walk (Some Samples.publibike_up)
            (Some Samples.escooter_up) None)) 1 = Some sv /\
    shows sv seg.
Proof.
  assert (Hk : exists seg,
             nth_error (create_route_segments Samples.walk_tram_walk
                          (extract_transfer_points Samples.walk_tram_walk)) 1
             = Some seg).
  { vm_compute. eexists. reflexivity. }
  destruct Hk as [seg Hk].
  destruct (alternatives_per_segment (H := decimal_math)
              Samples.walk_tram_walk (Some Samples.publibike_up)
              (Some Samples.escooter_up) None 1 seg Hk)
    as [_ [sv [Hsv [Hshow _]]]].
  exists seg, sv. split; [exact Hk|]. split; [exact Hsv | exact Hshow].
Defined.

Lemma walk_only_route_segments_witness :
  App.is_walk_only_route (Some (parse_otp_itinerary Samples.walk_only))
  = true /\
  Forall (fun sv => sv_mode sv = "WALK"%string /\ sv_route_info sv = None)
    (out_segments
       (analyze_route_with_alternatives (H := decimal_math)
          Samples.walk_only (Some Samples.publibike_up)
          (Some Samples.escooter_up) None)).
Proof.
  assert (Hw : App.is_walk_only_route
                 (Some (parse_otp_itinerary Samples.walk_only)) = true)
    by (vm_compute; reflexivity).
  split; [exact Hw|].
  exact (walk_only_route_segments (H := decimal_math) Samples.walk_only
           (Some Samples.publibike_up) (Some Samples.escooter_up) None Hw).
Defined.

Lemma scooter_fallback_estimate_witness :
  exists alt,
    find_alternative_modes_at_transfer (H := decimal_math)
      (Samples.point Samples.stop_b) (Samples.point Samples.office) None
      (Some Samples.escooter_up) (Some Samples.otp_down) 300
    = publibike_alternatives (H := decimal_math)
        (Samples.point Samples.stop_b) (Samples.point Samples.office) None
        (Some Samples.otp_down) 300 ++ [alt] /\
    alt_type alt = "scooter_share"%string /\
    alt_duration_min alt = Some 10 /\
    alt_distance_km alt = None /\
    alt_est_cost_chf alt = 5.
Proof.
  assert (Es : EScooter.get_nearby_scooters (H := decimal_math)
                 (latitude (Samples.point Samples.stop_b))
                 (longitude (Samples.point Samples.stop_b)) 300
                 Samples.escooter_up None
               = Ok [(Samples.scooter "voi-1" (4693 # 100) (742 # 100) None
                        false, 0 # 1000000000000000)]).
  { vm_compute. reflexivity. }
  apply (scooter_fallback_estimate (H := decimal_math) _ _ None
           Samples.escooter_up (Some Samples.otp_down) 300 _ _ [] Es).
  intros oc resp [= <-] Hp. discriminate Hp.
Defined.


Lemma scooter_estimate_bounds_witness :
  exists alt,
    In alt (find_alternative_modes_at_transfer (H := decimal_math)
              (Samples.point Samples.stop_b) (Samples.point Samples.office)
              None (Some Samples.escooter_up)
              (Some (Samples.otp_up 1200 1500)) 300) /\
    187 # 100 <= alt_est_cost_chf alt.
Proof.
  assert (Es : EScooter.get_nearby_scooters (H := decimal_math)
                 (latitude (Samples.point Samples.stop_b))
                 (longitude (Samples.point Samples.stop_b)) 300
                 Samples.escooter_up None
               = Ok [(Samples.scooter "voi-1" (4693 # 100) (742 # 100) None
                        false, 0 # 1000000000000000)]).
  { vm_compute. reflexivity. }
  destruct (scooter_estimate_bounds (H := decimal_math)
              (Samples.point Samples.stop_b) (Samples.point Samples.office)
              None Samples.escooter_up (Samples.otp_up 1200 1500) 300 _ _
              [] _ _ [] Es eq_refl eq_refl)
    as [alt [dur [Hres [_ [_ Hcost]]]]].
  exists alt. split; [rewrite Hres; apply in_or_app; right; now left|].
  exact Hcost.
Defined.


End SampleRuns.
